(** * A model of the classifier training loop of bert-text-classifier

    Sources:
    - [src/classify/trainer.py]: the file is a saved web page; the Python
      text of [BertTrainer] is the JSON string array on its line 1827.
      Line numbers below ("trainer L97") refer to that embedded source.
    - [src/classify/train.py]: its imports, [_ensure_defaults], the resume
      section of [main] and its trainer construction, its split check, its
      class list and its class weights.
    - [src/classify/utils.py]: [read_csv_required], [build_label_maps],
      [apply_label_map], [validate_dataset_splits].
    - [src/classify/data.py]: [TextDataset] ([__init__], [__getitem__],
      the label part of [get_stats]).
    - [src/classify/model.py]: [build_model], [_freeze_layers],
      [get_model_info], [_count_model_layers].

    Modelling choices:
    - tensors and the numeric backend are opaque: the model weights and the
      optimizer state are represented by the number of [optimizer.step()]
      calls applied to them, which is all the control flow depends on;
    - the data loaders are represented by their lengths, and the
      validation loss of each epoch (the value of
      [self.eval(self.val_dataloader)] when the loader is not empty) is
      supplied per epoch index; it is an IEEE float, compared with [<] as
      in the source: finite values (kept as integers, only their order
      matters), [inf], [-inf] and [nan];
    - the file system is a [gmap] from path to what [torch.load] finds
      there: a complete archive (its entries, the model and optimizer
      [state_dict]s) or a torn one (a file opened by [torch.save] whose
      archive is not finished: the zip directory is written last). *)

From stdpp Require Import base gmap strings list.
From stdpp Require Import pretty.
From Stdlib Require Import ZArith.
From Stdlib Require QArith_base.

(* ------------------------------------------------------------------ *)
(** ** Trainer state (trainer L11-36) *)

Module Trainer.

Record BertTrainer := mkTrainer {
  max_epochs : Z;
  output_path : string;
  clip : Z;
  patience : Z;
  timestep : nat;
  epoch : nat;
  (** number of optimizer steps applied to [self.model] *)
  model_w : nat;
  (** number of steps recorded in [self.optimizer]'s state *)
  optim_s : nat
}.

(** Exceptions that the modelled code can raise. *)
Inductive PyExn := ConfigError | ZeroDivisionError | TypeError | ImportError.

Inductive InitResult :=
| Constructed (t : BertTrainer)
| Raised (e : PyExn).

(** [BertTrainer.__init__] (trainer L12-36): stores its arguments and sets
    [timestep] and [epoch] to 0; it checks nothing and never raises.
    [model] and [optimizer] are passed as their current step counts. *)
Definition bert_trainer_init (model : nat) (max_epochs : Z)
    (optimizer : nat) (output_path : string) (clip : Z) (patience : Z)
    : InitResult :=
  Constructed (mkTrainer max_epochs output_path clip patience 0 0 model optimizer).

Definition set_epoch (i : nat) (t : BertTrainer) : BertTrainer :=
  mkTrainer (max_epochs t) (output_path t) (clip t) (patience t)
    (timestep t) i (model_w t) (optim_s t).

Definition set_patience (p : Z) (t : BertTrainer) : BertTrainer :=
  mkTrainer (max_epochs t) (output_path t) (clip t) p
    (timestep t) (epoch t) (model_w t) (optim_s t).

(** One iteration of the batch loop (trainer L105-111):
    [self.classify(batch)] (zero_grad, forward), [self.timestep += 1],
    [batch_loss.backward()], [self.optimizer.step()]. *)
Definition train_batch (t : BertTrainer) : BertTrainer :=
  mkTrainer (max_epochs t) (output_path t) (clip t) (patience t)
    (S (timestep t)) (epoch t) (S (model_w t)) (S (optim_s t)).

Fixpoint run_batches (n : nat) (t : BertTrainer) : BertTrainer :=
  match n with
  | O => t
  | S n' => run_batches n' (train_batch t)
  end.

(* ------------------------------------------------------------------ *)
(** ** Checkpoint files (trainer L38-51) *)

(** The two entries of the dictionary given to [torch.save]. *)
Inductive CkEntry :=
| EModel (w : nat)       (* "model": self.model.state_dict() *)
| EOptim (s : nat).      (* "optimizer": self.optimizer.state_dict() *)

(** What a path holds. [torch.save] writes a zip archive whose central
    directory comes last: until it is written the file is [Torn]. *)
Inductive FileState :=
| Torn
| Archive (es : list CkEntry).

Abbreviation Files := (gmap string FileState).

(** [torch.load]: the entries of a complete archive; a torn one raises. *)
Definition load (f : FileState) : option (list CkEntry) :=
  match f with
  | Archive es => Some es
  | Torn => None
  end.

(** The writes of [torch.save(obj, f)] on a path: [open(f, "wb")]
    (which truncates the file), the records of the archive, and its
    directory, which completes it. *)
Inductive FsOp :=
| OpenWb (path : string)
| WriteRecord (path : string)
| WriteDirectory (path : string) (es : list CkEntry).

Definition apply_op (fs : Files) (op : FsOp) : Files :=
  match op with
  | OpenWb p => <[p := Torn]> fs
  | WriteRecord p => <[p := Torn]> fs
  | WriteDirectory p es => <[p := Archive es]> fs
  end.

Definition apply_ops (ops : list FsOp) (fs : Files) : Files :=
  foldl apply_op fs ops.

(** [os.path.join(a, b)] for a relative [b] on POSIX. *)
Definition path_join (a b : string) : string :=
  if String.eqb a "" then b
  else if String.eqb (String.substring (String.length a - 1) 1 a) "/"
  then a +:+ b
  else a +:+ "/" +:+ b.

Definition ckpt_filename (t : BertTrainer) : string :=
  path_join (output_path t) "model.pt".

Definition checkpoint (t : BertTrainer) : list CkEntry :=
  [EModel (model_w t); EOptim (optim_s t)].

(** [BertTrainer.save]: [torch.save(checkpoint, filename)] on
    [filename = os.path.join(self.output_path, "model.pt")]; [nrec] is the
    number of records of the archive (it depends on the tensors). *)
Definition save_ops (nrec : nat) (t : BertTrainer) : list FsOp :=
  let f := ckpt_filename t in
  OpenWb f :: repeat (WriteRecord f) nrec ++ [WriteDirectory f (checkpoint t)].

(** A completed [BertTrainer.save]. *)
Definition save (t : BertTrainer) (fs : Files) : Files :=
  <[ckpt_filename t := Archive (checkpoint t)]> fs.

(* ------------------------------------------------------------------ *)
(** ** The epoch loop (trainer L97-160) *)

(** A Python float: a finite value, [inf], [-inf] or [nan]. *)
Inductive Flt :=
| Num (z : Z)
| PInf
| NInf
| NaN.

(** [a < b] on floats; false whenever one side is [nan]. *)
Definition flt_ltb (a b : Flt) : bool :=
  match a, b with
  | Num x, Num y => Z.ltb x y
  | Num _, PInf => true
  | NInf, Num _ => true
  | NInf, PInf => true
  | _, _ => false
  end.

(** [val_loss < best_val_loss] (trainer L138); [best_val_loss] starts at
    [np.inf]. *)
Definition improves (val_loss best_val_loss : Flt) : bool :=
  flt_ltb val_loss best_val_loss.

(** What one epoch leaves in the log: its index, whether the validation
    loss improved, and [self.patience] after the epoch. *)
Record Entry := mkEntry {
  e_epoch : nat;
  e_improved : bool;
  e_patience : Z
}.

Record Outcome := mkOutcome {
  o_trainer : BertTrainer;
  o_best : Flt;
  o_fs : Files;
  o_trace : list Entry
}.

(** The end of one epoch (trainer L138-155), once the evaluations went
    through: on improvement [best_val_loss = val_loss] and [self.save()]
    (the predictions file and the metrics are not modelled); otherwise
    [self.patience -= 1]. *)
Definition end_of_epoch (val_loss best : Flt) (t : BertTrainer) (fs : Files)
    : Flt * BertTrainer * Files * bool :=
  if improves val_loss best then (val_loss, t, save t fs, true)
  else (best, set_patience (patience t - 1) t, fs, false).

(** Epochs [i], [i+1], ..., [i+n-1] of [for epoch_index in
    range(self.max_epochs)]. [nb], [nv] and [nt] are the lengths of the
    training, validation and test loaders and [val_loss i] the validation
    loss measured after epoch [i]. Three divisions can fail:
    [train_loss /= num_train_batch] (L113) with no training batch, and
    [loss /= len(dataloader)] in [eval] (L203) on an empty validation
    loader, or on an empty test loader, which is evaluated on improvement
    before [self.save()]. The loop breaks when [self.patience == 0]
    (L158-160). *)
Fixpoint train_from (nb nv nt : nat) (val_loss : nat -> Flt) (n i : nat)
    (best : Flt) (t : BertTrainer) (fs : Files) : PyExn + Outcome :=
  match n with
  | O => inr (mkOutcome t best fs [])
  | S n' =>
      let t1 := run_batches nb (set_epoch i t) in
      if Nat.eqb nb 0 then inl ZeroDivisionError
      else if Nat.eqb nv 0 then inl ZeroDivisionError
      else if improves (val_loss i) best && Nat.eqb nt 0 then inl ZeroDivisionError
      else
        let '(best2, t2, fs2, imp) := end_of_epoch (val_loss i) best t1 fs in
        let e := mkEntry i imp (patience t2) in
        if Z.eqb (patience t2) 0 then inr (mkOutcome t2 best2 fs2 [e])
        else
          match train_from nb nv nt val_loss n' (S i) best2 t2 fs2 with
          | inl ex => inl ex
          | inr o => inr (mkOutcome (o_trainer o) (o_best o) (o_fs o) (e :: o_trace o))
          end
  end.

(** [BertTrainer.train]: [range(self.max_epochs)] is empty for a
    non-positive [max_epochs]. *)
Definition train (nb nv nt : nat) (val_loss : nat -> Flt) (t : BertTrainer)
    (fs : Files) : PyExn + Outcome :=
  train_from nb nv nt val_loss (Z.to_nat (max_epochs t)) 0 PInf t fs.

(** Finite losses supplied for epoch [i] from a list (the last one
    repeats). *)
Definition losses (l : list Z) (i : nat) : Flt :=
  match l !! i with
  | Some v => Num v
  | None => Num (default 0%Z (last l))
  end.

End Trainer.

(* ------------------------------------------------------------------ *)
(** ** [train.py]: imports, defaults shim, resume handling *)

Module TrainPy.

(** Python values held by the argument namespace. A float is kept as a
    fraction [num / den]. *)
Inductive PyVal :=
| VNone
| VInt (z : Z)
| VFloat (num : Z) (den : positive)
| VBool (b : bool)
| VStr (s : string).

(** An [argparse.Namespace] (or a namespace built from a dict):
    [hasattr(ns, k)] is [is_Some (ns !! k)]. *)
Abbreviation Namespace := (gmap string PyVal).

(** The [defaults] dict of [_ensure_defaults] (train.py L25-39), in order. *)
Definition defaults : list (string * PyVal) :=
  [("dropout_rate", VNone);
   ("freeze_layers", VNone);
   ("gpus", VNone);
   ("resume_from", VNone);
   ("grad_accum_steps", VInt 1);
   ("num_workers", VInt 2);
   ("grad_clip", VFloat 1 1);
   ("patience", VInt 2);
   ("fp16", VBool false);
   ("gradient_accumulation_steps", VInt 1);
   ("eval_steps", VNone);
   ("save_steps", VNone)].

Definition set_default (ns : Namespace) (kv : string * PyVal) : Namespace :=
  match ns !! kv.1 with
  | Some _ => ns
  | None => <[kv.1 := kv.2]> ns
  end.

(** [_ensure_defaults] (train.py L23-46). *)
Definition ensure_defaults (ns : Namespace) : Namespace :=
  let ns1 := foldl set_default ns defaults in
  match ns1 !! "gradient_accumulation_steps", ns1 !! "grad_accum_steps" with
  | Some v, None => <[ "grad_accum_steps" := v ]> ns1
  | _, _ => ns1
  end.

(** The top-level names [classify/trainer.py] defines. *)
Definition trainer_module_names : list string :=
  ["os"; "torch"; "logging"; "csv"; "np"; "precision_recall_fscore_support";
   "classification_report"; "logger"; "BertTrainer"].

(** [from classify.trainer import BertTrainer, TrainArgs] (train.py L12),
    run when train.py is loaded: [ImportError] for a missing name. *)
Definition import_trainer : option Trainer.PyExn :=
  if forallb (fun x => bool_decide (x ∈ trainer_module_names)) ["BertTrainer"; "TrainArgs"]
  then None else Some Trainer.ImportError.

(** What [main] prints about the resume path. *)
Inductive Log := ResumeNotFound (path : string).

(** train.py L212-216: [resume_from = getattr(args, "resume_from", None)];
    a truthy path that does not exist is reported and replaced by [None];
    the result is stored in [targs.resume_from]. *)
Definition resume_setup (path_exists : string -> bool)
    (resume_from : option string) : list Log * option string :=
  match resume_from with
  | None => ([], None)
  | Some p =>
      if String.eqb p "" then ([], Some p)
      else if path_exists p then ([], Some p)
      else ([ResumeNotFound p], None)
  end.

(** The parameters of [BertTrainer.__init__] (trainer L12-24). *)
Definition init_params : list string :=
  ["model"; "max_epochs"; "optimizer"; "loss"; "train_dataloader";
   "val_dataloader"; "test_dataloader"; "output_path"; "clip"; "patience"].

(** The keywords of [main]'s call [BertTrainer(...)] (train.py L218-227). *)
Definition main_trainer_kwargs : list string :=
  ["model"; "tokenizer"; "train_ds"; "val_ds"; "test_ds"; "args";
   "label_names"; "class_weights"].

(** How the start of a run ends: the trainer is built with
    [targs.resume_from] set to the given value, or an exception. *)
Inductive StartResult :=
| Started (resume_from : option string)
| StartFailed (e : Trainer.PyExn).

(** The resume section of [main] and the trainer's construction
    (train.py L212-227): a keyword that [__init__] does not declare makes
    the call raise [TypeError]. *)
Definition startup (path_exists : string -> bool) (resume_from : option string)
    : list Log * StartResult :=
  let '(logs, r) := resume_setup path_exists resume_from in
  (logs, if forallb (fun k => bool_decide (k ∈ init_params)) main_trainer_kwargs
         then Started r else StartFailed Trainer.TypeError).

(** Running train.py: the module's imports first, then [main] (only its
    start is modelled). *)
Definition run_train_py (path_exists : string -> bool) (resume_from : option string)
    : list Log * StartResult :=
  match import_trainer with
  | Some e => ([], StartFailed e)
  | None => startup path_exists resume_from
  end.

End TrainPy.

(* ------------------------------------------------------------------ *)
(** ** Progress lines of the batch loop (trainer L105-121) *)

Module TrainerLog.
Import Trainer.

(** A line ["Epoch %d | Batch %d/%d | Timestep %d | Loss %f"]: the epoch
    index, the 1-based batch index and [self.timestep] (the loss is not
    modelled). *)
Record BatchLog := mkBatchLog {
  l_epoch : nat;
  l_batch : nat;
  l_timestep : nat
}.

(** [n] more batches, the next one having index [b] in
    [enumerate(self.train_dataloader, 1)]: after [self.timestep += 1] a
    line is logged when [self.timestep % 10 == 0]. *)
Fixpoint batch_logs (n b : nat) (t : BertTrainer) : list BatchLog :=
  match n with
  | O => []
  | S n' =>
      let t1 := train_batch t in
      (if Nat.eqb (timestep t1 mod 10) 0
       then [mkBatchLog (epoch t1) b (timestep t1)] else []) ++
      batch_logs n' (S b) t1
  end.

End TrainerLog.

(* ------------------------------------------------------------------ *)
(** ** [utils.py]: reading the CSV splits, label maps (utils L32-173) *)

Module Utils.
Import QArith_base.

(** The ["label"] column: strings ([is_string_dtype]) or integers. *)
Inductive LabelCol :=
| LStr (ls : list string)
| LInt (zs : list Z).

(** A data frame: its column names, its ["text"] column and its ["label"]
    column (the last two are meaningful when the names are present). *)
Record Frame := mkFrame {
  columns : list string;
  text_col : list string;
  label_col : LabelCol
}.

(** A path on disk as [pd.read_csv] sees it: a frame, or a file it fails
    to parse (with the message of the pandas exception). [text_is_str]
    tells whether pandas gives the ["text"] column a string (object)
    dtype, on which the [.str] accessor works; a column of numbers only
    gets a numeric dtype. *)
Inductive CsvFile :=
| Parsed (df : Frame) (text_is_str : bool)
| Unparsable (msg : string).

Abbreviation Files := (gmap string CsvFile).

(** Exceptions raised while reading a split. *)
Inductive ReadError :=
| CsvNotFound (path : string)            (* FileNotFoundError *)
| CsvMissingColumns (missing : list string)  (* ValueError *)
| CsvParserError (msg : string)          (* raised by pd.read_csv *)
| CsvTextNotStr.                         (* AttributeError, [.str] on L61 *)

(** [read_csv_required] (utils L32-65); the printed statistics are not
    modelled, but the [verbose] block is: on a non-empty frame it takes
    [df['text'].str.len()], which raises unless the text column has a
    string dtype. [required_columns - set(df.columns)] is a set whose
    order is not fixed; it is listed here in the order text, label. *)
Definition read_csv_required (files : Files) (path : string) (verbose : bool)
    : ReadError + Frame :=
  match files !! path with
  | None => inl (CsvNotFound path)
  | Some (Unparsable msg) => inl (CsvParserError msg)
  | Some (Parsed df text_is_str) =>
      match filter (fun c => c ∉ columns df) ["text"; "label"] with
      | [] =>
          if verbose && negb (Nat.eqb (length (text_col df)) 0) && negb text_is_str
          then inl CsvTextNotStr
          else inr df
      | missing => inl (CsvMissingColumns missing)
      end
  end.

(** [str(e)] for the exceptions above. *)
Definition read_error_str (e : ReadError) : string :=
  match e with
  | CsvNotFound p => "CSV file not found: " +:+ p
  | CsvMissingColumns m =>
      "CSV missing required columns: {" +:+
      String.concat ", " (map (fun c => "'" +:+ c +:+ "'") m) +:+ "}"
  | CsvParserError msg => msg
  | CsvTextNotStr => "Can only use .str accessor with string values!"
  end.

(** The three reads, in the order train, val, test; the first failure
    propagates. *)
Definition read_splits_with (verbose : bool) (files : Files) (tp vp sp : string)
    : ReadError + (Frame * Frame * Frame) :=
  match read_csv_required files tp verbose with
  | inl e => inl e
  | inr tr =>
      match read_csv_required files vp verbose with
      | inl e => inl e
      | inr va =>
          match read_csv_required files sp verbose with
          | inl e => inl e
          | inr te => inr (tr, va, te)
          end
      end
  end.

(** The reads of [validate_dataset_splits] (utils L153-157), with
    [verbose=False]. *)
Definition read_splits (files : Files) (tp vp sp : string)
    : ReadError + (Frame * Frame * Frame) :=
  read_splits_with false files tp vp sp.

(** The dict returned by [validate_dataset_splits]: [overlap_percentage]
    is set on success only, [error] on failure only. *)
Record SplitReport := mkReport {
  has_overlap : bool;
  overlap_count : Z;
  overlap_percentage : option Q;
  error : option string
}.

(** [validate_dataset_splits] (utils L146-173): [len(set(all_texts))] is
    the number of distinct texts. *)
Definition validate_dataset_splits (files : Files) (tp vp sp : string) : SplitReport :=
  match read_splits files tp vp sp with
  | inl e => mkReport false 0 None (Some (read_error_str e))
  | inr (tr, va, te) =>
      let all_texts := text_col tr ++ text_col va ++ text_col te in
      let total_unique := Z.of_nat (length (remove_dups all_texts)) in
      let total_samples := Z.of_nat (length all_texts) in
      mkReport (negb (Z.eqb total_unique total_samples))
        (total_samples - total_unique)
        (Some (if Z.ltb 0 total_samples
               then inject_Z (total_samples - total_unique) / inject_Z total_samples
                    * inject_Z 100
               else 0))
        None
  end.

(** [sorted(...)] of distinct values: insertion by a total order. *)
Fixpoint insert_sorted {A} (le : A -> A -> bool) (x : A) (l : list A) : list A :=
  match l with
  | [] => [x]
  | y :: l' => if le x y then x :: y :: l' else y :: insert_sorted le x l'
  end.

Fixpoint sort_by {A} (le : A -> A -> bool) (l : list A) : list A :=
  match l with
  | [] => []
  | x :: l' => insert_sorted le x (sort_by le l')
  end.

(** A dict comprehension [{k: v for ...}]: later keys overwrite. *)
Definition py_dict {K V} `{Countable K} (items : list (K * V)) : gmap K V :=
  foldl (fun m kv => <[kv.1 := kv.2]> m) ∅ items.

(** The items of [label2id], in insertion order (utils L79-84). Python
    compares strings by code point, which is the byte order of their UTF-8
    encoding: [String.leb]. [.unique()] is taken as [remove_dups]; the
    order it leaves is undone by the sort. *)
Definition label_items (c : LabelCol) : list (string * Z) :=
  match c with
  | LStr ls =>
      let labels := sort_by String.leb (remove_dups ls) in
      imap (fun i lbl => (lbl, Z.of_nat i)) labels
  | LInt zs =>
      let labels := sort_by Z.leb (remove_dups zs) in
      (fun lbl => (pretty lbl, lbl)) <$> labels
  end.

(** [build_label_maps] (utils L68-93): [id2label] inverts the items of
    [label2id], whose keys are distinct. *)
Definition build_label_maps (df : Frame) : gmap string Z * gmap Z string :=
  let items := label_items (label_col df) in
  (py_dict items, py_dict ((fun kv => (kv.2, kv.1)) <$> items)).

(** [df["label"].map(label2id).astype(int)]: a label that is not a key
    becomes NaN and the cast raises; [None] stands for that exception. *)
Fixpoint map_labels (label2id : gmap string Z) (ls : list string) : option (list Z) :=
  match ls with
  | [] => Some []
  | l :: ls' =>
      match label2id !! l, map_labels label2id ls' with
      | Some i, Some ids => Some (i :: ids)
      | _, _ => None
      end
  end.

(** [apply_label_map] (utils L96-103); [None] is the raised cast error. *)
Definition apply_label_map (df : Frame) (label2id : gmap string Z) : option Frame :=
  match label_col df with
  | LStr ls =>
      match map_labels label2id ls with
      | Some ids => Some (mkFrame (columns df) (text_col df) (LInt ids))
      | None => None
      end
  | LInt zs => Some df
  end.

End Utils.

(* ------------------------------------------------------------------ *)
(** ** [main] of train.py: split check, classes, class weights *)

Module MainPy.
Import QArith_base Utils.

Inductive MainError :=
| ReadFailed (e : ReadError)                 (* raised by read_csv_required *)
| SplitValidationError (msg : string)        (* RuntimeError, L139 *)
| SplitOverlapError (count : Z)              (* RuntimeError, L141 *)
| LabelKeyError (i : Z)                      (* KeyError, L154 *)
| ClassWeightsLengthError (n k : nat).       (* ValueError, L187 *)

(** train.py L132-144: the three reads (with [verbose=True]), then the
    split check; [overlap.get("error")] is truthy for a non-empty message. *)
Definition load_splits (files : Files) (tp vp sp : string)
    : MainError + (Frame * Frame * Frame) :=
  match read_splits_with true files tp vp sp with
  | inl e => inl (ReadFailed e)
  | inr frames =>
      let r := validate_dataset_splits files tp vp sp in
      let overlap_step :=
        if has_overlap r then inl (SplitOverlapError (overlap_count r)) else inr frames in
      match error r with
      | Some msg => if String.eqb msg "" then overlap_step else inl (SplitValidationError msg)
      | None => overlap_step
      end
  end.

(** [[id2label[i] for i in range(num_labels)]], [num_labels = len(id2label)]
    (L153-154). *)
Fixpoint lookup_ids (id2label : gmap Z string) (ids : list nat) : MainError + list string :=
  match ids with
  | [] => inr []
  | i :: ids' =>
      match id2label !! Z.of_nat i with
      | None => inl (LabelKeyError (Z.of_nat i))
      | Some l =>
          match lookup_ids id2label ids' with
          | inl e => inl e
          | inr ls => inr (l :: ls)
          end
      end
  end.

Definition classes_ordered (id2label : gmap Z string) : MainError + list string :=
  lookup_ids id2label (seq 0 (size id2label)).

(** [counts.get(i, 1)] with [counts = train_df["label"].value_counts().to_dict()]. *)
Definition counts_get (labels : list Z) (i : Z) : Z :=
  match count_occ Z.eq_dec labels i with
  | O => 1
  | c => Z.of_nat c
  end.

(** [[float(N) / (K * float(counts.get(i, 1))) for i in range(K)]] (L185),
    computed exactly. *)
Definition default_class_weights (labels : list Z) (K : nat) : list Q :=
  (fun i => inject_Z (Z.of_nat (length labels)) /
             (inject_Z (Z.of_nat K) * inject_Z (counts_get labels (Z.of_nat i))))
    <$> seq 0 K.

(** L181-189: [args.class_weights] if given, else the default ones; then
    the length check. *)
Definition resolve_class_weights (class_weights : option (list Q)) (labels : list Z)
    (K : nat) : MainError + list Q :=
  let cw := match class_weights with
            | Some w => w
            | None => default_class_weights labels K
            end in
  if Nat.eqb (length cw) K then inr cw else inl (ClassWeightsLengthError (length cw) K).

End MainPy.

(* ------------------------------------------------------------------ *)
(** ** [data.py]: [TextDataset] *)

Module Data.

Record TextDataset := mkDataset {
  ds_texts : list string;
  ds_labels : list Z
}.

(** [TextDataset.__init__] (data L20-35); [None] is the [AssertionError]
    (the tokenizer and the padding options are not modelled). *)
Definition text_dataset (texts : list string) (labels : list Z) : option TextDataset :=
  if Nat.eqb (length texts) (length labels) then Some (mkDataset texts labels) else None.

(** Python list indexing [l[i]]: a negative index counts from the end;
    [None] is the [IndexError]. *)
Definition py_index {A} (l : list A) (i : Z) : option A :=
  let n := Z.of_nat (length l) in
  let j := if Z.ltb i 0 then (i + n)%Z else i in
  if Z.leb 0 j && Z.ltb j n then l !! Z.to_nat j else None.

(** [__getitem__] (data L40-42): [{"text": self.texts[i], "label": self.labels[i]}]. *)
Definition getitem (d : TextDataset) (i : Z) : option (string * Z) :=
  match py_index (ds_texts d) i with
  | None => None
  | Some x =>
      match py_index (ds_labels d) i with
      | None => None
      | Some y => Some (x, y)
      end
  end.

(** The integer part of [get_stats] (data L63-75): [label_counts] is the
    dict built from [np.unique(self.labels, return_counts=True)], listed as
    its items (sorted distinct labels); the text length statistics are
    floats and are not modelled. *)
Record Stats := mkStats {
  num_samples : nat;
  num_classes : nat;
  label_counts : list (Z * nat)
}.

Definition get_stats (d : TextDataset) : Stats :=
  let unique_labels := Utils.sort_by Z.leb (remove_dups (ds_labels d)) in
  mkStats (length (ds_texts d)) (length unique_labels)
    ((fun u => (u, count_occ Z.eq_dec (ds_labels d) u)) <$> unique_labels).

End Data.

(* ------------------------------------------------------------------ *)
(** ** [model.py]: [build_model], [_freeze_layers], [get_model_info] *)

Module ModelPy.
Import TrainPy.

(** A parameter tensor: its size and its [requires_grad] flag. *)
Record Param := mkParam {
  numel : nat;
  requires_grad : bool
}.

(** Which branch of the [hasattr] tests the model takes: [model.bert.encoder],
    [model.roberta.encoder], or neither, with [config.num_hidden_layers]
    if the config has it. *)
Inductive Arch :=
| Bert
| Roberta
| OtherArch (config_layers : option nat).

(** The parameters of a model: those of [get_input_embeddings()], those of
    each layer of [encoder.layer] (for [Bert] and [Roberta]), and all the
    others (position embeddings, pooler, classifier, ...). *)
Record Model := mkModel {
  arch : Arch;
  input_embeddings : list Param;
  layers : list (list Param);
  rest : list Param
}.

Definition freeze (ps : list Param) : list Param :=
  map (fun p => mkParam (numel p) false) ps.

(** The two lines printed for an architecture without layer freezing:
    its [num_hidden_layers] and the requested count. *)
Inductive Warning := FreezeUnsupported (model_layers : nat) (requested : Z).

(** [_freeze_layers] (model L81-105). *)
Definition freeze_layers_ (m : Model) (num_layers : Z) : Model * list Warning :=
  if Z.leb num_layers 0 then (m, [])
  else
    let m1 := mkModel (arch m) (freeze (input_embeddings m)) (layers m) (rest m) in
    match arch m with
    | Bert | Roberta =>
        (mkModel (arch m) (freeze (input_embeddings m))
           (imap (fun i l => if Z.ltb (Z.of_nat i) num_layers then freeze l else l)
              (layers m))
           (rest m), [])
    | OtherArch (Some n) => (m1, [FreezeUnsupported n num_layers])
    | OtherArch None => (m1, [])
    end.

(** [model_config] of [build_model] (model L55-62). *)
Definition dropout_config (dropout_rate : option PyVal) : gmap string PyVal :=
  match dropout_rate with
  | None => ∅
  | Some d =>
      <["attention_dropout" := d]> (<["dropout" := d]>
        (<["attention_probs_dropout_prob" := d]> (<["hidden_dropout_prob" := d]>
          (<["classifier_dropout" := d]> ∅))))
  end.

(** The names [from_pretrained] already receives explicitly: the class
    [cls] it is bound to, its first parameter, and the three keywords of
    model L66-69. *)
Definition explicit_args : list string :=
  ["cls"; "pretrained_model_name_or_path"; "num_labels"; "id2label"; "label2id"].

(** [**{**model_config, **kwargs}] (model L70): the merged keywords, or
    [None] for the [TypeError] "got multiple values for keyword argument"
    when one of them is already passed explicitly. *)
Definition call_kwargs (dropout_rate : option PyVal) (kwargs : gmap string PyVal)
    : option (gmap string PyVal) :=
  let merged := kwargs ∪ dropout_config dropout_rate in
  if existsb (fun k => bool_decide (is_Some (merged !! k))) explicit_args
  then None else Some merged.

(** [build_model] (model L7-78). [config_layers] is
    [AutoConfig.from_pretrained(model_name).num_hidden_layers] (if the
    config has it) and [from_pretrained] the load with the given extra
    keywords: the model, or [None] when the load raises (a keyword that
    neither the config nor the model's [__init__] accepts, such as
    ["dropout"] for BERT, gives a [TypeError]). [None] is the [TypeError]
    above or an exception of the load. *)
Definition build_model (config_layers : option nat)
    (from_pretrained : gmap string PyVal -> option Model)
    (dropout_rate : option PyVal) (freeze_layers : option Z)
    (kwargs : gmap string PyVal) : option (Model * list Warning) :=
  let fl := match freeze_layers with
            | Some k => if Z.eqb k (-1) then Some (Z.of_nat (default 0 config_layers))
                        else Some k
            | None => None
            end in
  match call_kwargs dropout_rate kwargs with
  | None => None
  | Some kw =>
      match from_pretrained kw with
      | None => None
      | Some model =>
          match fl with
          | Some k => if Z.leb 0 k then Some (freeze_layers_ model k) else Some (model, [])
          | None => Some (model, [])
          end
      end
  end.

Definition parameters (m : Model) : list Param :=
  input_embeddings m ++ concat (layers m) ++ rest m.

Definition total_params (m : Model) : nat :=
  sum_list_with numel (parameters m).

(** [sum(p.numel() for p in model.parameters() if p.requires_grad)]. *)
Definition trainable_params (m : Model) : nat :=
  sum_list_with (fun p => if requires_grad p then numel p else 0) (parameters m).

(** [_count_model_layers] (model L129-137). *)
Definition count_model_layers (m : Model) : Z :=
  match arch m with
  | Bert | Roberta => Z.of_nat (length (layers m))
  | OtherArch (Some n) => Z.of_nat n
  | OtherArch None => (-1)%Z
  end.

(** The integer entries of [get_model_info] (model L108-126); the class
    name and the memory estimate are not modelled. *)
Record ModelInfo := mkInfo {
  total_parameters : nat;
  trainable_parameters : nat;
  non_trainable_parameters : Z;
  num_hidden_layers : option Z
}.

Definition get_model_info (m : Model) : ModelInfo :=
  let total := total_params m in
  let trainable := trainable_params m in
  let n := count_model_layers m in
  mkInfo total trainable (Z.of_nat total - Z.of_nat trainable)
    (if Z.ltb 0 n then Some n else None).

End ModelPy.

(* ================================================================== *)
(** * Properties *)

Module Props.
Import Trainer TrainPy.

(** The log of a complete [train] call from an empty file system. *)
Definition run_trace (nb nv nt : nat) (val_loss : nat -> Flt) (t : BertTrainer)
    : option (list Entry) :=
  match train nb nv nt val_loss t ∅ with
  | inr o => Some (o_trace o)
  | inl _ => None
  end.

(** Number of non-improving epochs in a log. *)
Fixpoint nonimproving (tr : list Entry) : nat :=
  match tr with
  | [] => 0
  | e :: tr' => (if e_improved e then 0 else 1) + nonimproving tr'
  end.

(** Each logged patience value follows from the previous one: unchanged
    after an improving epoch, one less after a non-improving one. *)
Fixpoint patience_steps (p : Z) (tr : list Entry) : Prop :=
  match tr with
  | [] => True
  | e :: tr' =>
      (e_patience e = if e_improved e then p else p - 1)%Z /\
      patience_steps (e_patience e) tr'
  end.

(** The epoch loop of [train_from] when none of its divisions fails. *)
Fixpoint loop_ok (nb : nat) (val_loss : nat -> Flt) (n i : nat)
    (best : Flt) (t : BertTrainer) (fs : Files) : Outcome :=
  match n with
  | O => mkOutcome t best fs []
  | S n' =>
      let t1 := run_batches nb (set_epoch i t) in
      let '(best2, t2, fs2, imp) := end_of_epoch (val_loss i) best t1 fs in
      let e := mkEntry i imp (patience t2) in
      if Z.eqb (patience t2) 0 then mkOutcome t2 best2 fs2 [e]
      else
        let o := loop_ok nb val_loss n' (S i) best2 t2 fs2 in
        mkOutcome (o_trainer o) (o_best o) (o_fs o) (e :: o_trace o)
  end.

Lemma train_from_ok (nb nv nt : nat) (val_loss : nat -> Flt) (n i : nat)
    (best : Flt) (t : BertTrainer) (fs : Files) :
  0 < nb -> 0 < nv -> 0 < nt ->
  train_from nb nv nt val_loss n i best t fs = inr (loop_ok nb val_loss n i best t fs).
Proof.
  intros Hb Hv Ht; destruct nb as [|nb]; [lia|]; destruct nv as [|nv]; [lia|];
    destruct nt as [|nt]; [lia|].
  revert i best t fs; induction n as [|n IH]; intros i best t fs; [reflexivity|].
  cbn [train_from loop_ok Nat.eqb]; rewrite andb_false_r.
  unfold end_of_epoch; destruct (improves (val_loss i) best);
    destruct (Z.eqb _ 0); rewrite ?IH; reflexivity.
Qed.

Lemma train_from_inr (nb nv nt : nat) (val_loss : nat -> Flt) (n i : nat)
    (best : Flt) (t : BertTrainer) (fs : Files) (o : Outcome) :
  train_from nb nv nt val_loss n i best t fs = inr o ->
  o = loop_ok nb val_loss n i best t fs /\
  (nt = 0 -> Forall (fun e => e_improved e = false) (o_trace o)).
Proof.
  revert i best t fs o; induction n as [|n IH]; intros i best t fs o H;
    cbn [train_from loop_ok] in H |- *.
  - injection H as <-; split; [reflexivity | constructor].
  - destruct (Nat.eqb nb 0); [discriminate|].
    destruct (Nat.eqb nv 0); [discriminate|].
    unfold end_of_epoch in H |- *.
    destruct (improves (val_loss i) best) eqn:Hi; cbn [andb] in H.
    + destruct (Nat.eqb_spec nt 0) as [Hnt|Hnt]; [discriminate|].
      destruct (Z.eqb _ 0).
      * injection H as <-; split; [reflexivity | intros; contradiction].
      * destruct (train_from _ _ _ _ _ _ _ _ _) as [ex|o'] eqn:E; [discriminate|].
        injection H as <-; destruct (IH _ _ _ _ _ E) as [-> _].
        split; [reflexivity | intros; contradiction].
    + destruct (Z.eqb _ 0).
      * injection H as <-; split; [reflexivity|]; intros _; repeat constructor.
      * destruct (train_from _ _ _ _ _ _ _ _ _) as [ex|o'] eqn:E; [discriminate|].
        injection H as <-; destruct (IH _ _ _ _ _ E) as [-> Hf].
        split; [reflexivity|]; intros Hnt; constructor; [reflexivity | exact (Hf Hnt)].
Qed.

Lemma train_from_inl (nb nv nt : nat) (val_loss : nat -> Flt) (n i : nat)
    (best : Flt) (t : BertTrainer) (fs : Files) (e : PyExn) :
  train_from nb nv nt val_loss n i best t fs = inl e ->
  e = ZeroDivisionError /\ (nb = 0 \/ nv = 0 \/ nt = 0).
Proof.
  revert i best t fs; induction n as [|n IH]; intros i best t fs H;
    cbn [train_from] in H; [discriminate|].
  destruct (Nat.eqb_spec nb 0); [injection H as <-; auto|].
  destruct (Nat.eqb_spec nv 0); [injection H as <-; auto|].
  destruct (improves (val_loss i) best && Nat.eqb nt 0) eqn:Hc.
  { injection H as <-; apply andb_true_iff in Hc as [_ Hc];
      apply Nat.eqb_eq in Hc; auto. }
  unfold end_of_epoch in H; destruct (improves (val_loss i) best);
    destruct (Z.eqb _ 0); try discriminate;
    destruct (train_from _ _ _ _ _ _ _ _ _) eqn:E; try discriminate;
    injection H as <-; exact (IH _ _ _ _ E).
Qed.

(** How a call of [train] ends: the loop above, or [ZeroDivisionError]
    with an empty loader. *)
Lemma train_cases (nb nv nt : nat) (val_loss : nat -> Flt) (t : BertTrainer)
    (fs : Files) :
  match train nb nv nt val_loss t fs with
  | inr o => o = loop_ok nb val_loss (Z.to_nat (max_epochs t)) 0 PInf t fs /\
             (nt = 0 -> Forall (fun e => e_improved e = false) (o_trace o))
  | inl e => e = ZeroDivisionError /\ (nb = 0 \/ nv = 0 \/ nt = 0)
  end.
Proof.
  destruct (train nb nv nt val_loss t fs) as [e|o] eqn:E; unfold train in E.
  - exact (train_from_inl _ _ _ _ _ _ _ _ _ _ E).
  - exact (train_from_inr _ _ _ _ _ _ _ _ _ _ E).
Qed.

Lemma run_batches_eq (n : nat) (t : BertTrainer) :
  run_batches n t =
  mkTrainer (max_epochs t) (output_path t) (clip t) (patience t)
    (timestep t + n) (epoch t) (model_w t + n) (optim_s t + n).
Proof.
  revert t; induction n as [|n IH]; intros [me op c p ts ep w s]; simpl.
  - rewrite !Nat.add_0_r; reflexivity.
  - rewrite IH; simpl; f_equal; lia.
Qed.

Lemma patience_run_batches (n : nat) (t : BertTrainer) :
  patience (run_batches n t) = patience t.
Proof. rewrite run_batches_eq; reflexivity. Qed.

Lemma max_epochs_run_batches (n : nat) (t : BertTrainer) :
  max_epochs (run_batches n t) = max_epochs t.
Proof. rewrite run_batches_eq; reflexivity. Qed.

Lemma output_path_run_batches (n : nat) (t : BertTrainer) :
  output_path (run_batches n t) = output_path t.
Proof. rewrite run_batches_eq; reflexivity. Qed.

Lemma ckpt_filename_run_batches (n : nat) (t : BertTrainer) :
  ckpt_filename (run_batches n t) = ckpt_filename t.
Proof. unfold ckpt_filename; rewrite output_path_run_batches; reflexivity. Qed.

(** Saving writes the two entries to [model.pt] and touches no other path. *)
Lemma save_eq (t : BertTrainer) (fs : Files) :
  save t fs =
  <[ckpt_filename t := Archive [EModel (model_w t); EOptim (optim_s t)]]> fs.
Proof. reflexivity. Qed.

(** Position, in a log, of its last improving epoch. *)
Fixpoint last_improved (tr : list Entry) : option nat :=
  match tr with
  | [] => None
  | e :: tr' =>
      match last_improved tr' with
      | Some k => Some (S k)
      | None => if e_improved e then Some 0 else None
      end
  end.

Lemma ck_eq (a b c d : nat) :
  a = b -> c = d ->
  Some (Archive [EModel a; EOptim c]) = Some (Archive [EModel b; EOptim d]).
Proof. intros -> ->; reflexivity. Qed.

Ltac epoch_cases :=
  match goal with
  | |- context [improves ?v ?b] => destruct (improves v b) eqn:?
  end.

(** What the epoch loop leaves behind: the trainer has run [nb] steps per
    logged epoch and is not reset, and [model.pt] holds the state saved at
    the end of the last improving epoch (or what it held before). *)
Lemma loop_result (nb : nat) (val_loss : nat -> Flt) (n i : nat)
    (best : Flt) (t : BertTrainer) (fs : Files) :
  let o := loop_ok nb val_loss n i best t fs in
  timestep (o_trainer o) = timestep t + nb * length (o_trace o) /\
  model_w (o_trainer o) = model_w t + nb * length (o_trace o) /\
  optim_s (o_trainer o) = optim_s t + nb * length (o_trace o) /\
  output_path (o_trainer o) = output_path t /\
  o_fs o !! ckpt_filename t =
    match last_improved (o_trace o) with
    | Some k => Some (Archive [EModel (model_w t + nb * S k); EOptim (optim_s t + nb * S k)])
    | None => fs !! ckpt_filename t
    end.
Proof.
  revert i best t fs; induction n as [|n IH]; intros i best t fs; simpl.
  - rewrite !Nat.mul_0_r, !Nat.add_0_r; auto.
  - unfold end_of_epoch; epoch_cases; simpl;
      rewrite ?patience_run_batches; simpl.
    + (* improvement: the epoch's state is saved *)
      destruct (Z.eqb (patience t) 0) eqn:Hp; simpl.
      * rewrite save_eq, run_batches_eq; unfold ckpt_filename; simpl.
        rewrite lookup_insert_eq.
        repeat split; [nia | nia | nia | apply ck_eq; nia].
      * destruct (IH (S i) (val_loss i) (run_batches nb (set_epoch i t))
                    (save (run_batches nb (set_epoch i t)) fs))
          as (Hts & Hw & Hs & Ho & Hf).
        rewrite ?run_batches_eq in *; simpl in *.
        repeat split; [nia | nia | nia | exact Ho |].
        unfold ckpt_filename in Hf |- *; simpl in Hf.
        rewrite Hf.
        destruct (last_improved _) as [k|].
        -- apply ck_eq; nia.
        -- rewrite save_eq, ?run_batches_eq; unfold ckpt_filename; simpl.
           rewrite lookup_insert_eq; apply ck_eq; nia.
    + (* no improvement: patience is decremented, nothing is saved *)
      destruct (Z.eqb (patience t - 1) 0) eqn:Hp; simpl.
      * rewrite ?run_batches_eq; simpl.
        repeat split; nia.
      * destruct (IH (S i) best
                    (set_patience (patience t - 1) (run_batches nb (set_epoch i t)))
                    fs)
          as (Hts & Hw & Hs & Ho & Hf).
        rewrite ?run_batches_eq in *; simpl in *.
        repeat split; [nia | nia | nia | exact Ho |].
        unfold ckpt_filename in Hf |- *; simpl in Hf.
        rewrite Hf.
        destruct (last_improved _) as [k|]; [apply ck_eq; nia | reflexivity].
Qed.

(** Without an improving epoch nothing is written. *)
Lemma loop_no_save (nb : nat) (val_loss : nat -> Flt) (n i : nat)
    (best : Flt) (t : BertTrainer) (fs : Files) :
  last_improved (o_trace (loop_ok nb val_loss n i best t fs)) = None ->
  o_fs (loop_ok nb val_loss n i best t fs) = fs.
Proof.
  revert i best t fs; induction n as [|n IH]; intros i best t fs; cbn [loop_ok];
    [reflexivity|].
  unfold end_of_epoch; destruct (improves (val_loss i) best);
    destruct (Z.eqb _ 0); cbn [o_trace o_fs last_improved e_improved]; intros H.
  - discriminate H.
  - destruct (last_improved _); discriminate H.
  - reflexivity.
  - destruct (last_improved _) eqn:E; [discriminate H|]. exact (IH _ _ _ _ E).
Qed.

(** The log of the loop depends only on the losses and on patience. *)
Fixpoint trace_from (val_loss : nat -> Flt) (n i : nat) (best : Flt) (p : Z)
    : list Entry :=
  match n with
  | O => []
  | S n' =>
      let imp := improves (val_loss i) best in
      let p2 := if imp then p else (p - 1)%Z in
      let best2 := if imp then val_loss i else best in
      mkEntry i imp p2 ::
        (if Z.eqb p2 0 then [] else trace_from val_loss n' (S i) best2 p2)
  end.

Lemma loop_trace (nb : nat) (val_loss : nat -> Flt) (n i : nat)
    (best : Flt) (t : BertTrainer) (fs : Files) :
  o_trace (loop_ok nb val_loss n i best t fs) =
  trace_from val_loss n i best (patience t).
Proof.
  revert i best t fs; induction n as [|n IH]; intros i best t fs; [reflexivity|].
  cbn [loop_ok trace_from].
  unfold end_of_epoch; destruct (improves (val_loss i) best);
    cbn [patience set_patience]; rewrite patience_run_batches;
    cbn [patience set_epoch];
    destruct (Z.eqb _ 0); cbn [o_trace]; rewrite ?IH;
    rewrite ?patience_run_batches; reflexivity.
Qed.

Lemma run_trace_eq (nb nv nt : nat) (val_loss : nat -> Flt) (t : BertTrainer) :
  0 < nb -> 0 < nv -> 0 < nt ->
  run_trace nb nv nt val_loss t =
  Some (trace_from val_loss (Z.to_nat (max_epochs t)) 0 PInf (patience t)).
Proof.
  intros Hb Hv Ht; unfold run_trace, train.
  rewrite train_from_ok by assumption.
  rewrite loop_trace; reflexivity.
Qed.

(** With a negative patience the counter never reaches 0 again. *)
Lemma trace_from_negative (val_loss : nat -> Flt) (n i : nat) (best : Flt) (p : Z) :
  (p < 0)%Z -> length (trace_from val_loss n i best p) = n.
Proof.
  revert i best p; induction n as [|n IH]; intros i best p Hp; [reflexivity|].
  cbn [trace_from].
  destruct (improves (val_loss i) best).
  - destruct (Z.eqb_spec p 0) as [Hz|Hz]; [lia|].
    cbn [length]; rewrite IH; lia.
  - destruct (Z.eqb_spec (p - 1) 0) as [Hz|Hz]; [lia|].
    cbn [length]; rewrite IH; lia.
Qed.

(** [self.patience] along the loop: the steps of the log, the final value,
    and the budget of non-improving epochs for a positive start. *)
Lemma loop_patience (nb : nat) (val_loss : nat -> Flt) (n i : nat)
    (best : Flt) (t : BertTrainer) (fs : Files) :
  let o := loop_ok nb val_loss n i best t fs in
  patience_steps (patience t) (o_trace o) /\
  patience (o_trainer o) = (patience t - Z.of_nat (nonimproving (o_trace o)))%Z /\
  ((0 < patience t)%Z -> (Z.of_nat (nonimproving (o_trace o)) <= patience t)%Z).
Proof.
  revert i best t fs; induction n as [|n IH]; intros i best t fs;
    cbn [loop_ok].
  - cbn [o_trace o_trainer nonimproving patience_steps].
    repeat split; lia.
  - unfold end_of_epoch; destruct (improves (val_loss i) best);
      cbn [patience set_patience]; rewrite ?patience_run_batches;
      cbn [patience set_epoch].
    + destruct (Z.eqb_spec (patience t) 0) as [Hp|Hp];
        cbn [o_trace o_trainer nonimproving e_improved e_patience patience_steps].
      * rewrite ?patience_run_batches; cbn [patience set_epoch].
        repeat split; lia.
      * destruct (IH (S i) (val_loss i) (run_batches nb (set_epoch i t))
                    (save (run_batches nb (set_epoch i t)) fs))
          as (Hs & Hf & Hc).
        rewrite ?patience_run_batches in Hs, Hc, Hf; cbn [patience set_epoch] in Hs, Hc, Hf.
        repeat split; auto.
    + destruct (Z.eqb_spec (patience t - 1) 0) as [Hp|Hp];
        cbn [o_trace o_trainer patience set_patience].
      * cbn [nonimproving e_improved e_patience patience_steps].
        rewrite ?patience_run_batches; cbn [patience set_epoch].
        repeat split; lia.
      * destruct (IH (S i) best
                    (set_patience (patience t - 1) (run_batches nb (set_epoch i t)))
                    fs) as (Hs & Hf & Hc).
        cbn [o_trace o_trainer nonimproving e_improved e_patience patience_steps].
        cbn [patience set_patience] in Hs, Hc, Hf.
        rewrite Nat2Z.inj_add; cbn [Z.of_nat Pos.of_succ_nat].
        repeat split; auto; [lia|].
        intros Hpos; specialize (Hc ltac:(lia)); lia.
Qed.

(** ** C1 *)

(** C1 (failing input): one epoch of 10 training batches; the trainer
    steps the optimizer on every batch, so [timestep] and the optimizer
    have advanced by 10, not by 10 / 4 = 2 as an accumulation window of 4
    would give. *)
Lemma C1_ten_batches_ten_steps :
  match train 10 1 1 (losses [5]%Z) (mkTrainer 1 "output" 5 2 0 0 0 0) ∅ with
  | inr o =>
      timestep (o_trainer o) = 10 /\ optim_s (o_trainer o) = 10 /\
      ~ (timestep (o_trainer o) = 2)
  | inl _ => False
  end.
Proof. vm_compute; split; [reflexivity | split; [reflexivity | discriminate]]. Qed.

(** C1 (the code's behaviour): every processed batch applies exactly one
    optimizer step and increments [timestep] by exactly 1; after [n]
    batches the step count, the model and the optimizer have all advanced
    by [n], and a call of [train] that returns has run [nb] steps per
    epoch. *)
Theorem C1_one_step_per_batch (n : nat) (t : BertTrainer) :
  timestep (run_batches n t) = timestep t + n /\
  model_w (run_batches n t) = model_w t + n /\
  optim_s (run_batches n t) = optim_s t + n /\
  (forall (nb nv nt : nat) (val_loss : nat -> Flt) (fs : Files),
     match train nb nv nt val_loss t fs with
     | inr o =>
         timestep (o_trainer o) = timestep t + nb * length (o_trace o) /\
         optim_s (o_trainer o) = optim_s t + nb * length (o_trace o)
     | inl e => e = ZeroDivisionError
     end).
Proof.
  rewrite run_batches_eq; simpl; repeat split; auto.
  intros nb nv nt val_loss fs.
  pose proof (train_cases nb nv nt val_loss t fs) as Hc.
  destruct (train nb nv nt val_loss t fs) as [e|o]; [apply Hc|].
  destruct Hc as [-> _].
  destruct (loop_result nb val_loss (Z.to_nat (max_epochs t)) 0 PInf t fs)
    as (Hts & _ & Hs & _); auto.
Qed.

(** ** C2 *)

(** C2 (counterexample): patience 2, validation losses 5, 6, 4, 7, 8.
    Epoch 1 does not improve (patience 1); epoch 2 improves but patience
    stays 1 instead of being reset to 2; the loop stops after epoch 3. *)
Lemma C2_patience_not_reset :
  run_trace 1 1 1 (losses [5; 6; 4; 7; 8]%Z) (mkTrainer 5 "output" 5 2 0 0 0 0) =
  Some [mkEntry 0 true 2; mkEntry 1 false 1; mkEntry 2 true 1; mkEntry 3 false 0] /\
  (1 <> 2)%Z.
Proof. split; [vm_compute; reflexivity | discriminate]. Qed.

(** C2 (amended): on an improving epoch [best_val_loss] becomes the new
    loss and the state is saved, while [self.patience] is left unchanged
    (it is not reset). With patience 2 and the losses 0.20, 0.18, 0.19,
    0.19, 0.21 (the scenario's metrics read as losses), the second epoch
    improves, the third and fourth do not, and the loop stops after the
    fourth epoch. *)
Theorem C2_improvement_keeps_patience :
  (forall (v best : Flt) (t : BertTrainer) (fs : Files),
     improves v best = true ->
     end_of_epoch v best t fs = (v, t, save t fs, true)) /\
  (forall (nb nv nt : nat) (t : BertTrainer),
     patience t = 2%Z -> (5 <= max_epochs t)%Z -> 0 < nb -> 0 < nv -> 0 < nt ->
     run_trace nb nv nt (losses [20; 18; 19; 19; 21]%Z) t =
     Some [mkEntry 0 true 2; mkEntry 1 true 2; mkEntry 2 false 1;
           mkEntry 3 false 0]).
Proof.
  split.
  - intros v best t fs Hi; unfold end_of_epoch; rewrite Hi; reflexivity.
  - intros nb nv nt t Hp He Hb Hv Ht; rewrite run_trace_eq, Hp by assumption.
    assert (Hn : 5 <= Z.to_nat (max_epochs t)) by lia.
    destruct (Z.to_nat (max_epochs t)) as [|[|[|[|[|m]]]]]; try lia; reflexivity.
Qed.

(** ** C8 *)

(** C8 (counterexample): the quantity compared is the validation loss, and
    a larger one is not an improvement: after a best loss of 5, a loss of
    6 is strictly greater yet does not count. *)
Lemma C8_greater_is_not_improvement :
  ~ (forall v b : Z, improves (Num v) (Num b) = true <-> (b < v)%Z).
Proof.
  intros H; destruct (H 6%Z 5%Z) as [_ H2].
  discriminate (H2 ltac:(lia)).
Qed.

(** C8 (amended): an evaluation improves iff its validation loss is
    strictly below the best one under float comparison: between finite
    losses iff it is smaller; the best starting at [inf], the first loss
    improves iff it is neither [nan] nor [inf]; a [nan] loss never
    improves; a tie is not an improvement and decrements patience; with
    patience 2 the losses 0.7, 0.7, 0.7 stop the loop after exactly 2
    non-improving evaluations. *)
Theorem C8_strict_improvement :
  (forall v b : Z, improves (Num v) (Num b) = true <-> (v < b)%Z) /\
  (forall v : Flt, improves v PInf = true <-> v <> NaN /\ v <> PInf) /\
  (forall b : Flt, improves NaN b = false) /\
  (forall (v : Flt) (t : BertTrainer) (fs : Files),
     end_of_epoch v v t fs = (v, set_patience (patience t - 1) t, fs, false)) /\
  (forall (nb nv nt : nat) (t : BertTrainer),
     patience t = 2%Z -> (3 <= max_epochs t)%Z -> 0 < nb -> 0 < nv -> 0 < nt ->
     run_trace nb nv nt (losses [7; 7; 7]%Z) t =
     Some [mkEntry 0 true 2; mkEntry 1 false 1; mkEntry 2 false 0]).
Proof.
  split; [|split; [|split; [|split]]].
  - intros v b; apply Z.ltb_lt.
  - intros [v| | |]; cbn; split; intros H; try discriminate; try reflexivity;
      try (split; discriminate);
      exfalso; destruct H as [H1 H2]; first [apply H1; reflexivity | apply H2; reflexivity].
  - intros [b| | |]; reflexivity.
  - intros [v| | |] t fs; unfold end_of_epoch, improves, flt_ltb;
      rewrite ?Z.ltb_irrefl; reflexivity.
  - intros nb nv nt t Hp He Hb Hv Ht; rewrite run_trace_eq, Hp by assumption.
    assert (Hn : 3 <= Z.to_nat (max_epochs t)) by lia.
    destruct (Z.to_nat (max_epochs t)) as [|[|[|m]]]; try lia; reflexivity.
Qed.

(** ** C10 *)

(** C10 (counterexample): [__init__] accepts patience -1; losses 5, 6, 7,
    8, 9 over 5 epochs: patience goes -1, -2, ..., never equals 0, so the
    loop never stops early and the run has 4 non-improving epochs, more
    than the configured -1. *)
Lemma C10_negative_patience_never_stops :
  run_trace 1 1 1 (losses [5; 6; 7; 8; 9]%Z) (mkTrainer 5 "output" 5 (-1) 0 0 0 0) =
  Some [mkEntry 0 true (-1); mkEntry 1 false (-2); mkEntry 2 false (-3);
        mkEntry 3 false (-4); mkEntry 4 false (-5)] /\
  ~ (Z.of_nat 4 <= -1)%Z.
Proof. split; [vm_compute; reflexivity | lia]. Qed.

(** C10 (amended): [self.patience] never increases during the loop: each
    epoch leaves it unchanged when the validation loss improves and lowers
    it by exactly 1 otherwise, and it ends at the configured value minus
    the number of non-improving epochs. If the configured patience is
    positive, the run has at most that many non-improving epochs, whatever
    improvements come in between; if it is negative, it never reaches 0
    and every epoch of the budget runs. A run that does not return raises
    [ZeroDivisionError] on an empty loader. *)
Theorem C10_patience_budget (nb nv nt : nat) (val_loss : nat -> Flt) (n i : nat)
    (best : Flt) (t : BertTrainer) (fs : Files) :
  match train_from nb nv nt val_loss n i best t fs with
  | inr o =>
      patience_steps (patience t) (o_trace o) /\
      patience (o_trainer o) = (patience t - Z.of_nat (nonimproving (o_trace o)))%Z /\
      ((0 < patience t)%Z -> (Z.of_nat (nonimproving (o_trace o)) <= patience t)%Z) /\
      ((patience t < 0)%Z -> length (o_trace o) = n)
  | inl e => e = ZeroDivisionError /\ (nb = 0 \/ nv = 0 \/ nt = 0)
  end.
Proof.
  destruct (train_from nb nv nt val_loss n i best t fs) as [e|o] eqn:E.
  - exact (train_from_inl _ _ _ _ _ _ _ _ _ _ E).
  - destruct (train_from_inr _ _ _ _ _ _ _ _ _ _ E) as [-> _].
    destruct (loop_patience nb val_loss n i best t fs) as (Hs & Hf & Hc).
    repeat split; auto.
    intros Hn; rewrite loop_trace; apply trace_from_negative; exact Hn.
Qed.

(** ** C4 *)

(** C4 (counterexample): patience 2, one batch per epoch, losses 0.20,
    0.18, 0.19, 0.19, 0.21. The best epoch is the second (its state, two
    steps, is in [output/model.pt]), but the loop returns with the model of
    the fourth epoch (four steps): nothing is restored. *)
Lemma C4_last_state_not_restored :
  match train 1 1 1 (losses [20; 18; 19; 19; 21]%Z) (mkTrainer 5 "output" 5 2 0 0 0 0) ∅ with
  | inr o =>
      model_w (o_trainer o) = 4 /\
      o_fs o !! "output/model.pt" = Some (Archive [EModel 2; EOptim 2])
  | inl _ => False
  end.
Proof. vm_compute; split; reflexivity. Qed.

(** C4 (amended): when the loop ends (budget exhausted or patience spent)
    the model and the optimizer keep the state of the last epoch run
    ([nb] steps per epoch, no reload); the best state exists only on disk:
    [model.pt] holds the model and optimizer of the last improving epoch
    (or its previous contents if no epoch improved). A call that does not
    return raises [ZeroDivisionError] on an empty loader. *)
Theorem C4_final_state_is_last_epoch (nb nv nt : nat) (val_loss : nat -> Flt)
    (t : BertTrainer) (fs : Files) :
  match train nb nv nt val_loss t fs with
  | inr o =>
      model_w (o_trainer o) = model_w t + nb * length (o_trace o) /\
      optim_s (o_trainer o) = optim_s t + nb * length (o_trace o) /\
      o_fs o !! ckpt_filename t =
        match last_improved (o_trace o) with
        | Some k => Some (Archive [EModel (model_w t + nb * S k); EOptim (optim_s t + nb * S k)])
        | None => fs !! ckpt_filename t
        end
  | inl e => e = ZeroDivisionError /\ (nb = 0 \/ nv = 0 \/ nt = 0)
  end.
Proof.
  pose proof (train_cases nb nv nt val_loss t fs) as Hc.
  destruct (train nb nv nt val_loss t fs) as [e|o]; [exact Hc|].
  destruct Hc as [-> _].
  destruct (loop_result nb val_loss (Z.to_nat (max_epochs t)) 0 PInf t fs)
    as (_ & Hw & Hs & _ & Hf).
  auto.
Qed.

(** ** C5 *)

(** C5 (counterexample): two trainers that differ only in [timestep]
    write the same checkpoint, so no loader can give back the loop
    counters from it. *)
Lemma C5_counters_not_recoverable :
  ~ (exists rd : FileState -> nat * nat * Z,
       forall (t : BertTrainer) (fs : Files),
         option_map rd (save t fs !! ckpt_filename t) =
         Some (timestep t, epoch t, patience t)).
Proof.
  intros [rd H].
  pose proof (H (mkTrainer 5 "output" 5 2 3 0 7 7) ∅) as H1.
  pose proof (H (mkTrainer 5 "output" 5 2 4 0 7 7) ∅) as H2.
  rewrite save_eq, lookup_insert_eq in H1, H2; cbn in H1, H2.
  congruence.
Qed.

(** C5 (amended): a checkpoint holds exactly the model and the optimizer
    state; reading [model.pt] back after [save] gives these two, and the
    loop counters (step, epoch, patience, best loss) are not part of it:
    trainers with the same model and optimizer write the same file. *)
Theorem C5_checkpoint_contents (t : BertTrainer) (fs : Files) :
  save t fs !! ckpt_filename t = Some (Archive [EModel (model_w t); EOptim (optim_s t)]) /\
  (forall t' : BertTrainer,
     output_path t' = output_path t -> model_w t' = model_w t ->
     optim_s t' = optim_s t -> save t' fs = save t fs).
Proof.
  split.
  - rewrite save_eq; apply lookup_insert_eq.
  - intros t' Ho Hw Hs; rewrite !save_eq; unfold ckpt_filename.
    rewrite Ho, Hw, Hs; reflexivity.
Qed.

(** ** C6 *)

(** C6 (counterexample): a good checkpoint is in [output/model.pt]; the
    next save is interrupted right after [open(filename, "wb")]: the file
    at the published path is then torn and cannot be loaded; neither the
    old nor the new checkpoint is there. *)
Lemma C6_crash_destroys_previous :
  let fs0 := save (mkTrainer 5 "output" 5 2 1 0 1 1) ∅ in
  let t2 := mkTrainer 5 "output" 5 2 2 1 2 2 in
  option_map load (fs0 !! "output/model.pt") = Some (Some [EModel 1; EOptim 1]) /\
  ckpt_filename t2 = "output/model.pt" /\
  option_map load (apply_ops (take 1 (save_ops 2 t2)) fs0 !! "output/model.pt") =
    Some None.
Proof. vm_compute; repeat split. Qed.

Definition op_path (op : FsOp) : string :=
  match op with
  | OpenWb p => p
  | WriteRecord p => p
  | WriteDirectory p _ => p
  end.

Lemma apply_ops_records (p : string) (k : nat) (fs : Files) :
  apply_ops (repeat (WriteRecord p) k) (<[p := Torn]> fs) = <[p := Torn]> fs.
Proof.
  induction k as [|k IH]; [reflexivity|].
  unfold apply_ops in *; cbn [repeat foldl apply_op].
  rewrite insert_insert_eq; exact IH.
Qed.

Lemma take_repeat_min {A} (x : A) (k n : nat) :
  take k (repeat x n) = repeat x (Nat.min k n).
Proof.
  revert n; induction k as [|k IH]; intros [|n]; cbn; [reflexivity..|].
  rewrite IH; reflexivity.
Qed.

(** C6 (amended): [save] writes in place: each of its writes targets the
    one path [output_path/model.pt] (no temporary file, no rename); the
    first one, [open(filename, "wb")], truncates it, and the archive is
    loadable only once its directory, the last write, is on disk. So a
    save interrupted after [k >= 1] writes, short of the last one, leaves
    a torn [model.pt] that [torch.load] rejects (the previous checkpoint is
    gone) and every other path unchanged; a completed one leaves the new
    checkpoint. *)
Theorem C6_save_in_place (nrec : nat) (t : BertTrainer) (fs : Files) :
  Forall (fun op => op_path op = ckpt_filename t) (save_ops nrec t) /\
  length (save_ops nrec t) = nrec + 2 /\
  (forall k, 1 <= k <= nrec + 1 ->
     apply_ops (take k (save_ops nrec t)) fs = <[ckpt_filename t := Torn]> fs) /\
  load Torn = None /\
  apply_ops (save_ops nrec t) fs = save t fs.
Proof.
  unfold save_ops; split; [|split; [|split; [|split]]].
  - constructor; [reflexivity|]; apply Forall_app; split.
    + apply Forall_forall; intros op Hop; apply list_elem_of_In, repeat_spec in Hop.
      subst op; reflexivity.
    + repeat constructor.
  - cbn [length]; rewrite length_app, repeat_length; cbn [length]; lia.
  - intros k Hk; destruct k as [|k]; [lia|].
    rewrite firstn_cons, take_app, repeat_length.
    replace (k - nrec) with 0 by lia; rewrite take_0, app_nil_r.
    rewrite take_repeat_min.
    unfold apply_ops; cbn [foldl apply_op].
    exact (apply_ops_records _ (Nat.min k nrec) fs).
  - reflexivity.
  - unfold apply_ops; cbn [foldl apply_op]; rewrite foldl_app.
    fold (apply_ops (repeat (WriteRecord (ckpt_filename t)) nrec)
            (<[ckpt_filename t := Torn]> fs)).
    rewrite apply_ops_records; cbn [foldl apply_op].
    rewrite insert_insert_eq; reflexivity.
Qed.

(** ** C3 *)

(** C3 (failing input): a trainer has made 3 optimizer steps and the run
    is restarted with [--resume_from output/model.pt] (an existing file):
    train.py stops at its import of [TrainArgs]; past it, [main]'s
    construction of the trainer raises [TypeError]; and a trainer built by
    [__init__] from the same model starts at [timestep] 0, its first batch
    being step 1 rather than 4. *)
Lemma C3_resume_restarts_at_zero :
  run_train_py (fun _ => true) (Some "output/model.pt") = ([], StartFailed ImportError) /\
  startup (fun _ => true) (Some "output/model.pt") = ([], StartFailed TypeError) /\
  bert_trainer_init 3 5 3 "output" 5 2 = Constructed (mkTrainer 5 "output" 5 2 0 0 3 3) /\
  timestep (run_batches 1 (mkTrainer 5 "output" 5 2 0 0 3 3)) = 1.
Proof. vm_compute; repeat split. Qed.

(** C3 (the code's behaviour): the resume path reaches nothing that could
    resume: whatever it is, train.py fails at its import and [main]'s
    trainer construction raises [TypeError]; [BertTrainer.__init__] has no
    resume parameter and always starts at [timestep] 0 and epoch 0. *)
Theorem C3_resume_ignored :
  (forall (path_exists : string -> bool) (r : option string),
     run_train_py path_exists r = ([], StartFailed ImportError) /\
     startup path_exists r = ((resume_setup path_exists r).1, StartFailed TypeError)) /\
  (forall (model : nat) (me : Z) (optimizer : nat) (out : string) (c p : Z),
     bert_trainer_init model me optimizer out c p =
     Constructed (mkTrainer me out c p 0 0 model optimizer)).
Proof.
  split; [|reflexivity].
  intros path_exists r; split; [reflexivity|].
  unfold startup; destruct (resume_setup path_exists r); reflexivity.
Qed.

(** ** C7 *)

(** A value listed for [k] in a list of defaults (its first occurrence). *)
Fixpoint assoc (k : string) (l : list (string * PyVal)) : option PyVal :=
  match l with
  | [] => None
  | (k', v) :: l' => if String.eqb k k' then Some v else assoc k l'
  end.

Lemma foldl_set_default_lookup (l : list (string * PyVal)) (ns : Namespace) (k : string) :
  foldl set_default ns l !! k =
  match ns !! k with
  | Some v => Some v
  | None => assoc k l
  end.
Proof.
  revert ns; induction l as [|[k' v'] l IH]; intros ns; cbn [foldl assoc].
  - destruct (ns !! k); reflexivity.
  - rewrite IH; unfold set_default; cbn [fst snd].
    destruct (String.eqb_spec k k') as [<-|Hne].
    + destruct (ns !! k) eqn:E; [rewrite E; reflexivity|].
      rewrite lookup_insert_eq; reflexivity.
    + destruct (ns !! k'); [reflexivity|].
      rewrite lookup_insert_ne by congruence; reflexivity.
Qed.

(** C7 (counterexample): patience 0 is accepted by the constructor, and a
    namespace with [gradient_accumulation_steps = 0] and [patience = 0]
    goes through [_ensure_defaults] unchanged: no [ConfigError]. *)
Lemma C7_zero_values_accepted :
  bert_trainer_init 0 50 0 "output" 5 0 = Constructed (mkTrainer 50 "output" 5 0 0 0 0 0) /\
  ensure_defaults (<["gradient_accumulation_steps" := VInt 0]> (<["patience" := VInt 0]> ∅))
    !! "gradient_accumulation_steps" = Some (VInt 0) /\
  ensure_defaults (<["gradient_accumulation_steps" := VInt 0]> (<["patience" := VInt 0]> ∅))
    !! "patience" = Some (VInt 0).
Proof. split; [reflexivity | split; vm_compute; reflexivity]. Qed.

(** C7 (amended): nothing is validated: the constructor always succeeds
    and stores the patience it is given, and [_ensure_defaults] keeps every
    value already present (whatever it is) and fills a missing key with its
    default (patience 2, gradient_accumulation_steps 1, ...). *)
Theorem C7_no_validation :
  (forall (model : nat) (me : Z) (optimizer : nat) (out : string) (c p : Z),
     bert_trainer_init model me optimizer out c p =
     Constructed (mkTrainer me out c p 0 0 model optimizer)) /\
  (forall (ns : Namespace) (k : string) (v : PyVal),
     ns !! k = Some v -> ensure_defaults ns !! k = Some v) /\
  (forall (ns : Namespace) (k : string) (v : PyVal),
     ns !! k = None -> assoc k defaults = Some v -> ensure_defaults ns !! k = Some v).
Proof.
  assert (Hmir : forall (ns : Namespace) (k : string) (v : PyVal),
            foldl set_default ns defaults !! k = Some v ->
            ensure_defaults ns !! k = Some v).
  { intros ns k v H; unfold ensure_defaults.
    destruct (foldl set_default ns defaults !! "gradient_accumulation_steps");
      [|exact H].
    destruct (foldl set_default ns defaults !! "grad_accum_steps") eqn:E;
      [exact H|].
    rewrite lookup_insert_ne; [exact H|].
    intros <-; congruence. }
  split; [reflexivity | split].
  - intros ns k v H; apply Hmir; rewrite foldl_set_default_lookup, H; reflexivity.
  - intros ns k v H Hd; apply Hmir; rewrite foldl_set_default_lookup, H; exact Hd.
Qed.

(** ** C9 *)

(** C9 (failing input): [output/model.pt] exists but is torn (left by a
    save interrupted after its [open]), and [--resume_from] names it:
    nothing reads it and nothing is reported about it; with a missing path
    instead, the warning is printed; in both cases the run aborts
    ([ImportError] at train.py's import, [TypeError] at [main]'s trainer
    construction past it). *)
Lemma C9_broken_checkpoint_not_logged :
  let fs := apply_ops (take 1 (save_ops 2 (mkTrainer 5 "output" 5 2 1 0 1 1))) ∅ in
  fs !! "output/model.pt" = Some Torn /\ load Torn = None /\
  startup (fun p => bool_decide (is_Some (fs !! p))) (Some "output/model.pt") =
    ([], StartFailed TypeError) /\
  startup (fun p => bool_decide (is_Some (fs !! p))) (Some "other.pt") =
    ([ResumeNotFound "other.pt"], StartFailed TypeError) /\
  run_train_py (fun p => bool_decide (is_Some (fs !! p))) (Some "output/model.pt") =
    ([], StartFailed ImportError).
Proof. vm_compute; repeat split. Qed.

(** C9 (the code's behaviour): a non-empty resume path that does not
    exist is reported and dropped ([None]); an existing path is kept
    without being read, and nothing is reported; whatever the path,
    [main]'s trainer construction raises [TypeError]. *)
Theorem C9_resume_path_handling (path_exists : string -> bool) :
  (forall r : option string, (startup path_exists r).2 = StartFailed TypeError) /\
  (forall q : string, q <> "" -> path_exists q = false ->
     resume_setup path_exists (Some q) = ([ResumeNotFound q], None)) /\
  (forall q : string, path_exists q = true ->
     resume_setup path_exists (Some q) = ([], Some q)).
Proof.
  split; [|split].
  - intros r; unfold startup; destruct (resume_setup path_exists r); reflexivity.
  - intros q Hq He; cbn.
    destruct (String.eqb_spec q ""); [contradiction|]; rewrite He; reflexivity.
  - intros q He; cbn; rewrite He; destruct (String.eqb q ""); reflexivity.
Qed.

(** ** Witnesses: the theorems above at concrete inputs *)

Lemma C2_witness :
  (improves (Num 18) (Num 20) = true /\
   end_of_epoch (Num 18) (Num 20) (mkTrainer 5 "output" 5 2 1 0 1 1) ∅ =
   (Num 18, mkTrainer 5 "output" 5 2 1 0 1 1,
    save (mkTrainer 5 "output" 5 2 1 0 1 1) ∅, true)) /\
  (patience (mkTrainer 5 "output" 5 2 0 0 0 0) = 2%Z /\
   (5 <= max_epochs (mkTrainer 5 "output" 5 2 0 0 0 0))%Z /\ 0 < 1 /\
   run_trace 1 1 1 (losses [20; 18; 19; 19; 21]%Z) (mkTrainer 5 "output" 5 2 0 0 0 0) =
   Some [mkEntry 0 true 2; mkEntry 1 true 2; mkEntry 2 false 1; mkEntry 3 false 0]).
Proof.
  split.
  - split; [reflexivity|].
    apply (proj1 C2_improvement_keeps_patience); reflexivity.
  - split; [reflexivity | split; [cbn; lia | split; [lia|]]].
    apply (proj2 C2_improvement_keeps_patience); cbn; [reflexivity | lia | lia | lia | lia].
Defined.

Lemma C5_witness :
  save (mkTrainer 5 "output" 5 2 3 0 7 7) ∅ !! "output/model.pt" =
    Some (Archive [EModel 7; EOptim 7]) /\
  (output_path (mkTrainer 5 "output" 5 2 4 1 7 7) = "output" /\
   save (mkTrainer 5 "output" 5 2 4 1 7 7) ∅ = save (mkTrainer 5 "output" 5 2 3 0 7 7) ∅).
Proof.
  split; [exact (proj1 (C5_checkpoint_contents (mkTrainer 5 "output" 5 2 3 0 7 7) ∅))|].
  split; [reflexivity|].
  apply (proj2 (C5_checkpoint_contents (mkTrainer 5 "output" 5 2 3 0 7 7) ∅));
    reflexivity.
Defined.

Lemma C6_witness :
  1 <= 2 <= 3 + 1 /\
  apply_ops (take 2 (save_ops 3 (mkTrainer 5 "output" 5 2 2 1 2 2)))
    (save (mkTrainer 5 "output" 5 2 1 0 1 1) ∅) =
  <["output/model.pt" := Torn]> (save (mkTrainer 5 "output" 5 2 1 0 1 1) ∅).
Proof.
  split; [lia|].
  exact (proj1 (proj2 (proj2 (C6_save_in_place 3 (mkTrainer 5 "output" 5 2 2 1 2 2)
                  (save (mkTrainer 5 "output" 5 2 1 0 1 1) ∅)))) 2 ltac:(lia)).
Defined.

Lemma C7_witness :
  (<["patience" := VInt 0]> (∅ : Namespace)) !! "patience" = Some (VInt 0) /\
  ensure_defaults (<["patience" := VInt 0]> ∅) !! "patience" = Some (VInt 0) /\
  (<["patience" := VInt 0]> (∅ : Namespace)) !! "gradient_accumulation_steps" = None /\
  assoc "gradient_accumulation_steps" defaults = Some (VInt 1) /\
  ensure_defaults (<["patience" := VInt 0]> ∅) !! "gradient_accumulation_steps" = Some (VInt 1).
Proof.
  split; [reflexivity|].
  split; [apply (proj1 (proj2 C7_no_validation)); reflexivity|].
  split; [reflexivity|].
  split; [reflexivity|].
  apply (proj2 (proj2 C7_no_validation)); reflexivity.
Defined.

Lemma C8_witness :
  (improves (Num 4) (Num 5) = true <-> (4 < 5)%Z) /\
  (patience (mkTrainer 50 "output" 5 2 0 0 0 0) = 2%Z /\
   (3 <= max_epochs (mkTrainer 50 "output" 5 2 0 0 0 0))%Z /\ 0 < 2 /\
   run_trace 2 1 1 (losses [7; 7; 7]%Z) (mkTrainer 50 "output" 5 2 0 0 0 0) =
   Some [mkEntry 0 true 2; mkEntry 1 false 1; mkEntry 2 false 0]).
Proof.
  split; [apply (proj1 C8_strict_improvement)|].
  split; [reflexivity | split; [cbn; lia | split; [lia|]]].
  apply (proj2 (proj2 (proj2 (proj2 C8_strict_improvement))));
    cbn; [reflexivity | lia | lia | lia | lia].
Defined.

Lemma C9_witness :
  ("ck.pt" <> "" /\ (fun _ : string => false) "ck.pt" = false /\
   resume_setup (fun _ => false) (Some "ck.pt") = ([ResumeNotFound "ck.pt"], None)) /\
  ((fun _ : string => true) "ck.pt" = true /\
   resume_setup (fun _ => true) (Some "ck.pt") = ([], Some "ck.pt")).
Proof.
  split.
  - split; [discriminate | split; [reflexivity|]].
    apply (proj1 (proj2 (C9_resume_path_handling (fun _ => false))));
      [discriminate | reflexivity].
  - split; [reflexivity|].
    apply (proj2 (proj2 (C9_resume_path_handling (fun _ => true))));
      reflexivity.
Defined.

End Props.

(* ================================================================== *)
(** * Further properties of the code *)

Module Facts.
Import Trainer TrainPy TrainerLog Props.

(** ** The epoch loop *)

Lemma trace_from_shape (val_loss : nat -> Flt) (n i : nat) (best : Flt) (p : Z) :
  let tr := trace_from val_loss n i best p in
  map e_epoch tr = seq i (length tr) /\
  length tr <= n /\
  (length tr < n -> exists e, last tr = Some e /\ e_patience e = 0%Z).
Proof.
  revert i best p; induction n as [|n IH]; intros i best p; cbn [trace_from].
  - cbn; repeat split; [lia | intros H; lia].
  - set (p2 := if improves (val_loss i) best then p else (p - 1)%Z).
    destruct (Z.eqb_spec p2 0) as [Hz|Hz].
    + cbn; repeat split; [lia|]. intros _; exists (mkEntry i (improves (val_loss i) best) p2).
      split; [reflexivity | exact Hz].
    + destruct (IH (S i) (if improves (val_loss i) best then val_loss i else best) p2)
        as (Hm & Hl & Hs).
      cbn [map length seq e_epoch]; rewrite Hm; split; [reflexivity|]; split; [lia|].
      intros Hlt; destruct Hs as (e & He & Hp); [lia|].
      exists e; split; [|exact Hp].
      destruct (trace_from val_loss n (S i) _ p2) eqn:E; [discriminate He|].
      rewrite last_cons; rewrite He; reflexivity.
Qed.

(** The order of floats, [nan] aside. *)
Ltac flt_cases :=
  repeat match goal with
         | |- context [Z.ltb ?x ?y] => destruct (Z.ltb_spec x y)
         | H : context [Z.ltb ?x ?y] |- _ => destruct (Z.ltb_spec x y)
         end;
  try discriminate; try reflexivity; try congruence; try lia.

Lemma flt_ltb_irrefl (a : Flt) : flt_ltb a a = false.
Proof. destruct a; cbn; flt_cases. Qed.

Lemma flt_ltb_trans (a b c : Flt) :
  flt_ltb a b = true -> flt_ltb b c = true -> flt_ltb a c = true.
Proof. destruct a, b, c; cbn; intros; flt_cases. Qed.

Lemma flt_ltb_asym (a b : Flt) : flt_ltb a b = true -> flt_ltb b a = false.
Proof. destruct a, b; cbn; intros; flt_cases. Qed.

Lemma flt_ltb_nan_l (a b : Flt) : flt_ltb a b = true -> a <> NaN /\ b <> NaN.
Proof. destruct a, b; cbn; intros; split; flt_cases. Qed.

(** [c < b <= a] gives [c < a] when neither [a] nor [b] is [nan]. *)
Lemma flt_ltb_le_trans (a b c : Flt) :
  a <> NaN -> b <> NaN -> flt_ltb a b = false -> flt_ltb c b = true ->
  flt_ltb c a = true.
Proof. destruct a, b, c; cbn; intros; flt_cases. Qed.

Lemma flt_ltb_inf (a : Flt) : flt_ltb a PInf = false <-> a = NaN \/ a = PInf.
Proof.
  destruct a; cbn; split; intros H;
    first [discriminate | reflexivity | (left; reflexivity) | (right; reflexivity)
          | (destruct H as [H|H]; discriminate)].
Qed.

(** Where the last improving epoch of a log sits among the losses: no
    loss logged is below its loss, it is below every earlier loss that is
    not [nan], and below the best loss the log started from. *)
Definition best_epoch_prop (val_loss : nat -> Flt) (i : nat) (best : Flt)
    (tr : list Entry) : Prop :=
  match last_improved tr with
  | Some k =>
      k < length tr /\
      (forall j, j < length tr -> flt_ltb (val_loss (i + j)) (val_loss (i + k)) = false) /\
      (forall j, j < k ->
         val_loss (i + j) = NaN \/ flt_ltb (val_loss (i + k)) (val_loss (i + j)) = true) /\
      flt_ltb (val_loss (i + k)) best = true
  | None =>
      forall j, j < length tr -> flt_ltb (val_loss (i + j)) best = false
  end.

Lemma trace_from_best (val_loss : nat -> Flt) (n i : nat) (best : Flt) (p : Z) :
  best <> NaN ->
  best_epoch_prop val_loss i best (trace_from val_loss n i best p).
Proof.
  revert i best p; induction n as [|n IH]; intros i best p Hbn.
  - unfold best_epoch_prop; cbn; intros j Hj; lia.
  - cbn [trace_from].
    remember (improves (val_loss i) best) as imp eqn:Himpeq.
    assert (Hr : best_epoch_prop val_loss (S i) (if imp then val_loss i else best)
                   (if Z.eqb (if imp then p else (p - 1)%Z) 0 then []
                    else trace_from val_loss n (S i) (if imp then val_loss i else best)
                           (if imp then p else (p - 1)%Z))).
    { destruct (Z.eqb _ 0); [unfold best_epoch_prop; cbn; intros j Hj; lia|].
      apply IH; destruct imp; [|exact Hbn].
      exact (proj1 (flt_ltb_nan_l _ _ (eq_sym Himpeq))). }
    revert Hr.
    generalize (if Z.eqb (if imp then p else (p - 1)%Z) 0 then []
                else trace_from val_loss n (S i) (if imp then val_loss i else best)
                       (if imp then p else (p - 1)%Z)) as rest.
    intros rest Hr.
    assert (Hsh : forall j, S i + j = i + S j) by (intros; lia).
    unfold best_epoch_prop in Hr |- *; cbn [last_improved length e_improved].
    unfold improves in Himpeq; symmetry in Himpeq.
    destruct imp; destruct (last_improved rest) as [k|];
      cbv iota; rewrite ?Nat.add_0_r;
      [destruct Hr as (Hk & Hle & Hlt & Hb);
       setoid_rewrite Hsh in Hle; setoid_rewrite Hsh in Hlt; rewrite Hsh in Hb
      | setoid_rewrite Hsh in Hr
      | destruct Hr as (Hk & Hle & Hlt & Hb);
       setoid_rewrite Hsh in Hle; setoid_rewrite Hsh in Hlt; rewrite Hsh in Hb
      | setoid_rewrite Hsh in Hr].
    + (* the first epoch improves, a later one too *)
      split; [lia|split; [|split]].
      * intros [|j] Hj; [rewrite Nat.add_0_r; apply flt_ltb_asym, Hb|].
        apply Hle; lia.
      * intros [|j] Hj; [rewrite Nat.add_0_r; right; exact Hb|].
        apply Hlt; lia.
      * exact (flt_ltb_trans _ _ _ Hb Himpeq).
    + (* the first epoch is the last improving one *)
      split; [lia|split; [|split]].
      * intros [|j] Hj; [rewrite Nat.add_0_r; apply flt_ltb_irrefl|].
        apply Hr; lia.
      * intros j Hj; lia.
      * exact Himpeq.
    + (* the first epoch does not improve, a later one does *)
      split; [lia|split; [|split]].
      * intros [|j] Hj.
        -- rewrite Nat.add_0_r.
           destruct (flt_ltb (val_loss i) (val_loss (i + S k))) eqn:E; [|reflexivity].
           rewrite (flt_ltb_trans _ _ _ E Hb) in Himpeq; discriminate.
        -- apply Hle; lia.
      * intros [|j] Hj.
        -- rewrite Nat.add_0_r.
           destruct (val_loss i) eqn:Ev; [right..| left; reflexivity];
             (apply (flt_ltb_le_trans _ best); [intros HN; discriminate HN|assumption..]).
        -- apply Hlt; lia.
      * exact Hb.
    + (* no epoch improves *)
      intros [|j] Hj; [rewrite Nat.add_0_r; exact Himpeq|].
      apply Hr; lia.
Qed.

Lemma loop_last_patience (nb : nat) (val_loss : nat -> Flt) (n i : nat)
    (best : Flt) (t : BertTrainer) (fs : Files) :
  let o := loop_ok nb val_loss n i best t fs in
  (o_trace o = [] -> o_trainer o = t) /\
  (forall e, last (o_trace o) = Some e -> e_patience e = patience (o_trainer o)).
Proof.
  revert i best t fs; induction n as [|n IH]; intros i best t fs; cbn [loop_ok].
  - split; [reflexivity | intros e He; discriminate He].
  - unfold end_of_epoch; destruct (improves (val_loss i) best);
      (destruct (Z.eqb _ 0) eqn:Hz; cbn [o_trace o_trainer];
       [split; [discriminate | intros e He; injection He as <-; reflexivity]|]);
      (split; [discriminate|]);
      intros e He; rewrite last_cons in He;
      match type of He with
      | context [last (o_trace (loop_ok ?nb ?vl ?n ?i ?b ?t ?fs))] =>
          destruct (last (o_trace (loop_ok nb vl n i b t fs))) eqn:El;
          destruct (IH i b t fs) as [H0 H1]
      end;
      cbv iota in He; injection He as <-;
      first [apply H1; exact El | apply last_None in El; rewrite (H0 El); reflexivity].
Qed.

Lemma batch_logs_spec (n b : nat) (t : BertTrainer) :
  length (batch_logs n b t) = (timestep t + n) / 10 - timestep t / 10 /\
  Forall (fun l => l_timestep l mod 10 = 0 /\ b <= l_batch l < b + n /\
                   l_timestep l + b = timestep t + l_batch l + 1 /\ l_epoch l = epoch t)
    (batch_logs n b t).
Proof.
  revert b t; induction n as [|n IH]; intros b t; cbn [batch_logs].
  - rewrite Nat.add_0_r, Nat.sub_diag; split; [reflexivity | constructor].
  - destruct (IH (S b) (train_batch t)) as [Hl Hf].
    cbn [timestep epoch train_batch] in Hl, Hf |- *.
    pose proof (Nat.div_mod_eq (timestep t) 10);
      pose proof (Nat.mod_upper_bound (timestep t) 10 ltac:(lia));
      pose proof (Nat.div_mod_eq (S (timestep t)) 10);
      pose proof (Nat.mod_upper_bound (S (timestep t)) 10 ltac:(lia));
      pose proof (Nat.Div0.div_le_mono (S (timestep t)) (S (timestep t) + n) 10 ltac:(lia)).
    replace (timestep t + S n) with (S (timestep t) + n) by lia.
    destruct (Nat.eqb_spec (S (timestep t) mod 10) 0) as [Hm|Hm];
      cbn [app length]; rewrite ?Hl.
    + split; [lia|constructor].
      * cbn [l_timestep l_batch l_epoch]; repeat split; lia.
      * eapply Forall_impl; [exact Hf|]; intros l (Ha & Hb & Hc & Hd); repeat split; lia.
    + split; [lia|].
      eapply Forall_impl; [exact Hf|]; intros l (Ha & Hb & Hc & Hd); repeat split; lia.
Qed.

(** X1: progress lines of an epoch of [n] batches: one exactly at each
    timestep that is a multiple of 10, so [(ts + n) / 10 - ts / 10] of
    them for a run starting at timestep [ts]; each reports its batch
    index, the timestep [ts + batch_index] and the current epoch. *)
Theorem X1_batch_log_cadence (n : nat) (t : BertTrainer) :
  length (batch_logs n 1 t) = (timestep t + n) / 10 - timestep t / 10 /\
  Forall (fun l => l_timestep l mod 10 = 0 /\ 1 <= l_batch l <= n /\
                   l_timestep l = timestep t + l_batch l /\ l_epoch l = epoch t)
    (batch_logs n 1 t).
Proof.
  destruct (batch_logs_spec n 1 t) as [Hl Hf]; split; [exact Hl|].
  eapply Forall_impl; [exact Hf|]; intros l (H1 & H2 & H3 & H4); repeat split; lia.
Qed.


(** X2: with non-empty loaders, [model.pt] is written iff some epoch run
    has a validation loss below [inf] (neither [nan] nor [inf]); it then
    holds the state after epoch [k], the first epoch run whose loss is the
    smallest of the losses run, [nan] ones aside; otherwise the file
    system is left as it was. *)
Theorem X2_checkpoint_is_best_epoch (nb nv nt : nat) (val_loss : nat -> Flt)
    (t : BertTrainer) (fs : Files) :
  0 < nb -> 0 < nv -> 0 < nt ->
  match train nb nv nt val_loss t fs with
  | inr o =>
      match last_improved (o_trace o) with
      | Some k =>
          k < length (o_trace o) /\
          o_fs o !! ckpt_filename t =
            Some (Archive [EModel (model_w t + nb * S k); EOptim (optim_s t + nb * S k)]) /\
          flt_ltb (val_loss k) PInf = true /\
          (forall j, j < length (o_trace o) -> flt_ltb (val_loss j) (val_loss k) = false) /\
          (forall j, j < k -> val_loss j = NaN \/ flt_ltb (val_loss k) (val_loss j) = true)
      | None =>
          o_fs o = fs /\
          (forall j, j < length (o_trace o) -> val_loss j = NaN \/ val_loss j = PInf)
      end
  | inl _ => False
  end.
Proof.
  intros Hb Hv Ht; unfold train; rewrite train_from_ok by assumption.
  destruct (loop_result nb val_loss (Z.to_nat (max_epochs t)) 0 PInf t fs)
    as (_ & _ & _ & _ & Hf).
  pose proof (loop_no_save nb val_loss (Z.to_nat (max_epochs t)) 0 PInf t fs) as Hn.
  pose proof (trace_from_best val_loss (Z.to_nat (max_epochs t)) 0 PInf (patience t)
                ltac:(discriminate)) as Hbest.
  rewrite <- (loop_trace nb val_loss (Z.to_nat (max_epochs t)) 0 PInf t fs) in Hbest.
  unfold best_epoch_prop in Hbest; cbn [Nat.add] in Hbest.
  destruct (last_improved _) as [k|] eqn:Hk.
  - destruct Hbest as (Hlt & Hle & Hs & Hinf).
    split; [exact Hlt|split; [exact Hf|split; [exact Hinf|split]]].
    + intros j Hj; exact (Hle j Hj).
    + intros j Hj; exact (Hs j Hj).
  - split; [exact (Hn eq_refl)|].
    intros j Hj; apply flt_ltb_inf, Hbest, Hj.
Qed.

(** The losses of a run whose first evaluation gives [nan]. *)
Definition nan_first (i : nat) : Flt :=
  match i with
  | 0 => NaN
  | 1 => Num 20
  | 2 => Num 18
  | _ => Num 19
  end.

Lemma X2_witness :
  0 < 1 /\ 0 < 1 /\ 0 < 1 /\
  match train 1 1 1 nan_first (mkTrainer 5 "output" 5 2 0 0 0 0) ∅ with
  | inr o =>
      match last_improved (o_trace o) with
      | Some k =>
          k < length (o_trace o) /\
          o_fs o !! ckpt_filename (mkTrainer 5 "output" 5 2 0 0 0 0) =
            Some (Archive [EModel (model_w (mkTrainer 5 "output" 5 2 0 0 0 0) + 1 * S k);
                           EOptim (optim_s (mkTrainer 5 "output" 5 2 0 0 0 0) + 1 * S k)]) /\
          flt_ltb (nan_first k) PInf = true /\
          (forall j, j < length (o_trace o) -> flt_ltb (nan_first j) (nan_first k) = false) /\
          (forall j, j < k -> nan_first j = NaN \/ flt_ltb (nan_first k) (nan_first j) = true)
      | None =>
          o_fs o = ∅ /\
          (forall j, j < length (o_trace o) -> nan_first j = NaN \/ nan_first j = PInf)
      end
  | inl _ => False
  end.
Proof.
  split; [lia|]; split; [lia|]; split; [lia|].
  apply (X2_checkpoint_is_best_epoch 1 1 1 nan_first (mkTrainer 5 "output" 5 2 0 0 0 0) ∅);
    lia.
Defined.

(** X3: what [train] runs: if it returns, the epochs run are [0, 1, ...,
    m-1] for some [m <= max(max_epochs, 0)], the loop stops before the
    budget only with [self.patience == 0], and with an empty test loader
    no epoch improved. Otherwise it raises [ZeroDivisionError], which
    needs an epoch to run and an empty loader; an empty training or
    validation loader raises as soon as an epoch runs. *)
Theorem X3_epochs_run (nb nv nt : nat) (val_loss : nat -> Flt) (t : BertTrainer)
    (fs : Files) :
  match train nb nv nt val_loss t fs with
  | inr o =>
      map e_epoch (o_trace o) = seq 0 (length (o_trace o)) /\
      length (o_trace o) <= Z.to_nat (max_epochs t) /\
      (length (o_trace o) < Z.to_nat (max_epochs t) -> patience (o_trainer o) = 0%Z) /\
      (nt = 0 -> Forall (fun e => e_improved e = false) (o_trace o))
  | inl e => e = ZeroDivisionError /\ (0 < max_epochs t)%Z /\ (nb = 0 \/ nv = 0 \/ nt = 0)
  end /\
  ((0 < max_epochs t)%Z -> nb = 0 \/ nv = 0 ->
   train nb nv nt val_loss t fs = inl ZeroDivisionError).
Proof.
  split.
  - pose proof (train_cases nb nv nt val_loss t fs) as Hc.
    destruct (train nb nv nt val_loss t fs) as [e|o] eqn:E.
    + destruct Hc as [He Hl]; split; [exact He|split; [|exact Hl]].
      destruct (Z.ltb_spec 0 (max_epochs t)) as [Hm|Hm]; [exact Hm|].
      unfold train in E; replace (Z.to_nat (max_epochs t)) with 0 in E by lia.
      discriminate E.
    + destruct Hc as [-> Hnt].
      pose proof (trace_from_shape val_loss (Z.to_nat (max_epochs t)) 0 PInf (patience t))
        as (Hmap & Hlen & Hst).
      rewrite <- (loop_trace nb val_loss (Z.to_nat (max_epochs t)) 0 PInf t fs)
        in Hmap, Hlen, Hst.
      split; [exact Hmap | split; [exact Hlen | split; [|exact Hnt]]].
      intros Hlt; destruct (Hst Hlt) as (e & He & Hp).
      rewrite <- Hp; symmetry; apply (proj2 (loop_last_patience _ _ _ _ _ _ _)); exact He.
  - intros Hm Hz; unfold train.
    destruct (Z.to_nat (max_epochs t)) as [|n] eqn:En; [lia|].
    cbn [train_from].
    destruct Hz as [->| ->]; [reflexivity|].
    destruct (Nat.eqb nb 0); reflexivity.
Qed.

(** X4: the configured patience at its edges: with a negative patience
    the loop never stops early and runs every epoch of the budget; with
    patience 0 it stops after the first epoch if that one improves (its
    loss is neither [nan] nor [inf]), and otherwise patience drops below
    0 and every epoch runs. *)
Theorem X4_patience_edges (nb nv nt : nat) (val_loss : nat -> Flt) (t : BertTrainer)
    (fs : Files) :
  match train nb nv nt val_loss t fs with
  | inr o =>
      ((patience t < 0)%Z -> length (o_trace o) = Z.to_nat (max_epochs t)) /\
      (patience t = 0%Z ->
       length (o_trace o) =
         if improves (val_loss 0) PInf then Nat.min 1 (Z.to_nat (max_epochs t))
         else Z.to_nat (max_epochs t))
  | inl e => e = ZeroDivisionError
  end.
Proof.
  pose proof (train_cases nb nv nt val_loss t fs) as Hc.
  destruct (train nb nv nt val_loss t fs) as [e|o]; [apply Hc|].
  destruct Hc as [-> _]; rewrite loop_trace; split.
  - intros Hp; apply trace_from_negative; exact Hp.
  - intros ->; destruct (Z.to_nat (max_epochs t)) as [|n];
      [destruct (improves (val_loss 0) PInf); reflexivity|].
    cbn [trace_from]; destruct (improves (val_loss 0) PInf); [reflexivity|].
    cbn [length]; f_equal.
    destruct (Z.eqb_spec (0 - 1) 0); [lia|].
    apply trace_from_negative; lia.
Qed.

(** ** [_ensure_defaults] *)

Lemma assoc_defaults_grad_accum : assoc "grad_accum_steps" defaults = Some (VInt 1).
Proof. reflexivity. Qed.

(** After the loop of [_ensure_defaults], [grad_accum_steps] is always
    set, so the mirroring branch (train.py L44-45) never runs. *)
Lemma ensure_defaults_loop (ns : Namespace) :
  ensure_defaults ns = foldl set_default ns defaults.
Proof.
  unfold ensure_defaults.
  destruct (foldl set_default ns defaults !! "gradient_accumulation_steps"); [|reflexivity].
  rewrite foldl_set_default_lookup.
  destruct (ns !! "grad_accum_steps"); reflexivity.
Qed.

(** X5: [_ensure_defaults] only adds the keys of its [defaults] dict
    (every other attribute is left as it is, present or not), every one of
    them is present afterwards, and applying it twice is the same as once. *)
Theorem X5_ensure_defaults_keys (ns : Namespace) :
  (forall k, assoc k defaults = None -> ensure_defaults ns !! k = ns !! k) /\
  (forall k v, assoc k defaults = Some v -> is_Some (ensure_defaults ns !! k)) /\
  ensure_defaults (ensure_defaults ns) = ensure_defaults ns.
Proof.
  split; [|split].
  - intros k Hk; rewrite ensure_defaults_loop, foldl_set_default_lookup, Hk.
    destruct (ns !! k); reflexivity.
  - intros k v Hk; rewrite ensure_defaults_loop, foldl_set_default_lookup, Hk.
    destruct (ns !! k); eauto.
  - rewrite !ensure_defaults_loop; apply map_eq; intros k.
    rewrite !foldl_set_default_lookup.
    destruct (ns !! k); [reflexivity|].
    destruct (assoc k defaults); reflexivity.
Qed.

Lemma X5_witness :
  assoc "output_path" defaults = None /\
  ensure_defaults (<["output_path" := VStr "out"]> ∅) !! "output_path" = Some (VStr "out") /\
  assoc "patience" defaults = Some (VInt 2) /\
  is_Some (ensure_defaults ∅ !! "patience").
Proof.
  split; [reflexivity|]; split.
  - rewrite (proj1 (X5_ensure_defaults_keys (<["output_path" := VStr "out"]> ∅)) "output_path")
      by reflexivity.
    apply lookup_insert_eq.
  - split; [reflexivity|].
    apply (proj1 (proj2 (X5_ensure_defaults_keys ∅)) "patience" (VInt 2)); reflexivity.
Defined.

(** X6: the legacy name is never mirrored: after [_ensure_defaults],
    [grad_accum_steps] is the value the caller gave it, or the default 1,
    whatever [gradient_accumulation_steps] is (so with
    [gradient_accumulation_steps = 4] and no [grad_accum_steps] it is 1). *)
Theorem X6_grad_accum_not_mirrored (ns : Namespace) :
  ensure_defaults ns !! "grad_accum_steps" =
    Some (match ns !! "grad_accum_steps" with Some v => v | None => VInt 1 end) /\
  (forall v, ensure_defaults (<["gradient_accumulation_steps" := v]> ns) !! "grad_accum_steps" =
             ensure_defaults ns !! "grad_accum_steps").
Proof.
  split.
  - rewrite ensure_defaults_loop, foldl_set_default_lookup.
    destruct (ns !! "grad_accum_steps"); reflexivity.
  - intros v; rewrite !ensure_defaults_loop, !foldl_set_default_lookup.
    rewrite lookup_insert_ne by discriminate; reflexivity.
Qed.

(** ** Reading the splits *)

Import Utils.

Lemma required_present (df : Frame) :
  filter (fun c => c ∉ columns df) ["text"; "label"] = [] ->
  "text" ∈ columns df /\ "label" ∈ columns df.
Proof.
  intros E.
  split; [destruct (decide ("text" ∈ columns df)) as [H|H]; [exact H|]; exfalso
         |destruct (decide ("label" ∈ columns df)) as [H|H]; [exact H|]; exfalso].
  - assert (Hin : "text" ∈ filter (fun c => c ∉ columns df) ["text"; "label"])
      by (apply list_elem_of_filter; split; [exact H | left]).
    rewrite E in Hin; inversion Hin.
  - assert (Hin : "label" ∈ filter (fun c => c ∉ columns df) ["text"; "label"])
      by (apply list_elem_of_filter; split; [exact H | right; left]).
    rewrite E in Hin; inversion Hin.
Qed.

(** X7: [read_csv_required] succeeds exactly on a parsed file that has both
    required columns, and, with [verbose], whose text column has a string
    dtype unless the file has no rows; a missing path gives
    [FileNotFoundError] before anything is parsed, the [ValueError] names
    exactly the required columns the file lacks, and with [verbose] a
    non-empty file whose text column is not of strings raises
    [AttributeError] from [.str]. *)
Theorem X7_read_csv_required (files : Files) (path : string) (verbose : bool) :
  match read_csv_required files path verbose with
  | inr df =>
      exists s, files !! path = Some (Parsed df s) /\
        "text" ∈ columns df /\ "label" ∈ columns df /\
        (verbose = true -> text_col df <> [] -> s = true)
  | inl (CsvNotFound p) => p = path /\ files !! path = None
  | inl (CsvMissingColumns m) =>
      m <> [] /\
      exists df s, files !! path = Some (Parsed df s) /\
        forall c, c ∈ m <-> c ∈ ["text"; "label"] /\ c ∉ columns df
  | inl (CsvParserError msg) => files !! path = Some (Unparsable msg)
  | inl CsvTextNotStr =>
      verbose = true /\
      exists df, files !! path = Some (Parsed df false) /\
        "text" ∈ columns df /\ "label" ∈ columns df /\ text_col df <> []
  end.
Proof.
  unfold read_csv_required.
  destruct (files !! path) as [[df s|msg]|] eqn:Hf; [| split; reflexivity | split; reflexivity].
  destruct (filter (fun c => c ∉ columns df) ["text"; "label"]) as [|c0 m0] eqn:E.
  - destruct (required_present df E) as [Ht Hl].
    destruct verbose, (text_col df) as [|x xs] eqn:Etc, s; cbn.
    all: first
      [ eexists; split; [reflexivity|split; [exact Ht|split; [exact Hl|]]]; intros; congruence
      | split; [reflexivity|]; exists df;
        split; [reflexivity|split; [exact Ht|split; [exact Hl|rewrite Etc; discriminate]]] ].
  - split; [discriminate|].
    exists df, s; split; [reflexivity|].
    intros c; rewrite <- E, list_elem_of_filter; tauto.
Qed.

Lemma length_remove_dups_le {A} `{EqDecision A} (l : list A) :
  length (remove_dups l) <= length l.
Proof.
  induction l as [|x l IH]; cbn [remove_dups]; [reflexivity|].
  destruct (decide_rel _ x l); cbn [length]; lia.
Qed.

Lemma length_remove_dups_NoDup {A} `{EqDecision A} (l : list A) :
  length (remove_dups l) = length l <-> NoDup l.
Proof.
  induction l as [|x l IH]; cbn [remove_dups]; [split; [constructor | reflexivity]|].
  rewrite NoDup_cons.
  destruct (decide_rel _ x l) as [Hx|Hx]; cbn [length].
  - pose proof (length_remove_dups_le l); split; [lia | tauto].
  - rewrite <- IH; split; [intros H; split; [exact Hx | lia] | intros [_ H]; lia].
Qed.

(** X8: [validate_dataset_splits] reports an overlap exactly when some
    text occurs twice among the three splits taken together (within one
    split as well as across splits); [overlap_count] is the number of texts
    minus the number of distinct ones. If a split cannot be read the
    report has no overlap, a count of 0 and the exception's message. *)
Theorem X8_validate_dataset_splits (files : Files) (tp vp sp : string) :
  let r := validate_dataset_splits files tp vp sp in
  match read_splits files tp vp sp with
  | inl e =>
      has_overlap r = false /\ overlap_count r = 0%Z /\ error r = Some (read_error_str e)
  | inr (tr, va, te) =>
      let all_texts := text_col tr ++ text_col va ++ text_col te in
      error r = None /\
      (has_overlap r = false <-> NoDup all_texts) /\
      overlap_count r = (Z.of_nat (length all_texts) - Z.of_nat (length (remove_dups all_texts)))%Z /\
      (0 <= overlap_count r)%Z /\
      (overlap_count r = 0%Z <-> has_overlap r = false)
  end.
Proof.
  unfold validate_dataset_splits.
  destruct (read_splits files tp vp sp) as [e|[[tr va] te]]; [cbn; auto|].
  cbn [has_overlap overlap_count error].
  set (all_texts := text_col tr ++ text_col va ++ text_col te).
  pose proof (length_remove_dups_le all_texts) as Hle.
  pose proof (length_remove_dups_NoDup all_texts) as Hnd.
  split; [reflexivity|].
  split; [|split; [reflexivity | split; [lia|]]].
  - rewrite <- Hnd, negb_false_iff, Z.eqb_eq; lia.
  - rewrite negb_false_iff, Z.eqb_eq; lia.
Qed.

(** A read with [verbose] that succeeds gives the same frame without it. *)
Lemma read_csv_verbose (files : Files) (path : string) (df : Frame) :
  read_csv_required files path true = inr df -> read_csv_required files path false = inr df.
Proof.
  unfold read_csv_required.
  destruct (files !! path) as [[df0 s|msg]|]; try discriminate.
  destruct (filter _ _); [|discriminate].
  destruct (_ && _); [discriminate|exact id].
Qed.

Lemma read_splits_verbose (files : Files) (tp vp sp : string) frames :
  read_splits_with true files tp vp sp = inr frames -> read_splits files tp vp sp = inr frames.
Proof.
  unfold read_splits, read_splits_with.
  destruct (read_csv_required files tp true) as [|tr] eqn:E1; [discriminate|].
  rewrite (read_csv_verbose _ _ _ E1).
  destruct (read_csv_required files vp true) as [|va] eqn:E2; [discriminate|].
  rewrite (read_csv_verbose _ _ _ E2).
  destruct (read_csv_required files sp true) as [|te] eqn:E3; [discriminate|].
  rewrite (read_csv_verbose _ _ _ E3); exact id.
Qed.

(** X9: in [main] (train.py L132-144) the "Split validation error" branch
    is never taken, since [main]'s own reads of the same files (with
    [verbose=True]) raise first; loading the splits fails exactly with the
    error of the first split [main] cannot read, or with the overlap error
    when some text is duplicated, and otherwise returns the three frames. *)
Theorem X9_load_splits (files : Files) (tp vp sp : string) :
  MainPy.load_splits files tp vp sp =
  match read_splits_with true files tp vp sp with
  | inl e => inl (MainPy.ReadFailed e)
  | inr (tr, va, te) =>
      let all_texts := text_col tr ++ text_col va ++ text_col te in
      if bool_decide (NoDup all_texts) then inr (tr, va, te)
      else inl (MainPy.SplitOverlapError
                  (Z.of_nat (length all_texts) - Z.of_nat (length (remove_dups all_texts))))
  end.
Proof.
  unfold MainPy.load_splits, validate_dataset_splits.
  destruct (read_splits_with true files tp vp sp) as [e|[[tr va] te]] eqn:Ev; [reflexivity|].
  rewrite (read_splits_verbose _ _ _ _ _ Ev).
  cbn [has_overlap overlap_count error].
  set (all_texts := text_col tr ++ text_col va ++ text_col te).
  pose proof (length_remove_dups_NoDup all_texts) as Hnd.
  destruct (bool_decide_reflect (NoDup all_texts)) as [H|H].
  - rewrite <- Hnd in H; rewrite H, Z.eqb_refl; reflexivity.
  - rewrite <- Hnd in H.
    replace (Z.of_nat (length (remove_dups all_texts)) =? Z.of_nat (length all_texts))%Z
      with false by (symmetry; apply Z.eqb_neq; lia).
    reflexivity.
Qed.

(** ** Label maps *)

Lemma insert_sorted_perm {A} (le : A -> A -> bool) (x : A) (l : list A) :
  insert_sorted le x l ≡ₚ x :: l.
Proof.
  induction l as [|y l IH]; cbn [insert_sorted]; [reflexivity|].
  destruct (le x y); [reflexivity|].
  rewrite IH; apply Permutation_swap.
Qed.

Lemma sort_by_perm {A} (le : A -> A -> bool) (l : list A) : sort_by le l ≡ₚ l.
Proof.
  induction l as [|x l IH]; cbn [sort_by]; [reflexivity|].
  rewrite insert_sorted_perm, IH; reflexivity.
Qed.

(** The sorted distinct values of a column. *)
Lemma sorted_unique {A} `{EqDecision A} (le : A -> A -> bool) (l : list A) :
  NoDup (sort_by le (remove_dups l)) /\
  (forall x, x ∈ sort_by le (remove_dups l) <-> x ∈ l) /\
  length (sort_by le (remove_dups l)) = length (remove_dups l).
Proof.
  pose proof (sort_by_perm le (remove_dups l)) as Hp.
  split; [rewrite Hp; apply NoDup_remove_dups|split].
  - intros x; rewrite Hp; apply elem_of_remove_dups.
  - apply Permutation_length, Hp.
Qed.

Section PyDict.
Context {K V : Type} `{Countable K}.

Lemma py_dict_go_notin (items : list (K * V)) (m : gmap K V) (k : K) :
  k ∉ fst <$> items ->
  foldl (fun m kv => <[kv.1 := kv.2]> m) m items !! k = m !! k.
Proof.
  revert m; induction items as [|[k' v'] items IH]; intros m Hk; [reflexivity|].
  cbn [foldl fst snd]; rewrite fmap_cons, not_elem_of_cons in Hk; destruct Hk as [Hne Hk].
  rewrite IH by exact Hk; apply lookup_insert_ne; cbn in Hne |- *; congruence.
Qed.

Lemma py_dict_go_in (items : list (K * V)) (m : gmap K V) (k : K) (v : V) :
  NoDup (fst <$> items) -> (k, v) ∈ items ->
  foldl (fun m kv => <[kv.1 := kv.2]> m) m items !! k = Some v.
Proof.
  revert m; induction items as [|[k' v'] items IH]; intros m Hnd Hin;
    [inversion Hin|].
  cbn [foldl fst snd]; rewrite fmap_cons, NoDup_cons in Hnd; destruct Hnd as [Hk' Hnd].
  apply elem_of_cons in Hin; destruct Hin as [Heq|Hin].
  - injection Heq as -> ->.
    rewrite py_dict_go_notin by exact Hk'; apply lookup_insert_eq.
  - apply IH; assumption.
Qed.

Lemma py_dict_lookup (items : list (K * V)) (k : K) (v : V) :
  NoDup (fst <$> items) -> (py_dict items !! k = Some v <-> (k, v) ∈ items).
Proof.
  intros Hnd; split; [|apply py_dict_go_in; exact Hnd].
  intros Hl.
  destruct (decide (k ∈ fst <$> items)) as [Hk|Hk].
  - apply list_elem_of_fmap in Hk; destruct Hk as ([k' v'] & Hkk & Hin); cbn in Hkk; subst k'.
    unfold py_dict in Hl; rewrite (py_dict_go_in _ _ _ v' Hnd Hin) in Hl.
    injection Hl as ->; exact Hin.
  - unfold py_dict in Hl; rewrite py_dict_go_notin in Hl by exact Hk.
    rewrite lookup_empty in Hl; discriminate.
Qed.

Lemma py_dict_is_Some (items : list (K * V)) (k : K) :
  NoDup (fst <$> items) -> (is_Some (py_dict items !! k) <-> k ∈ fst <$> items).
Proof.
  intros Hnd; split.
  - intros [v Hv]; apply py_dict_lookup in Hv; [|exact Hnd].
    apply list_elem_of_fmap; exists (k, v); split; [reflexivity | exact Hv].
  - intros Hk; apply list_elem_of_fmap in Hk; destruct Hk as ([k' v'] & Hkk & Hin);
      cbn in Hkk; subst k'.
    exists v'; apply py_dict_lookup; assumption.
Qed.

Lemma py_dict_go_size (items : list (K * V)) (m : gmap K V) :
  NoDup (fst <$> items) -> (forall k, k ∈ fst <$> items -> m !! k = None) ->
  size (foldl (fun m kv => <[kv.1 := kv.2]> m) m items) = size m + length items.
Proof.
  revert m; induction items as [|[k' v'] items IH]; intros m Hnd Hm; cbn [foldl fst snd length].
  - lia.
  - rewrite fmap_cons, NoDup_cons in Hnd; destruct Hnd as [Hk' Hnd].
    rewrite IH; [| exact Hnd |].
    + rewrite map_size_insert_None; [lia|]. apply Hm; rewrite fmap_cons; left.
    + intros k Hk; rewrite lookup_insert_ne.
      * apply Hm; rewrite fmap_cons; right; exact Hk.
      * cbn; intros ->; contradiction.
Qed.

Lemma py_dict_size (items : list (K * V)) :
  NoDup (fst <$> items) -> size (py_dict items) = length items.
Proof.
  intros Hnd; unfold py_dict; rewrite py_dict_go_size; [rewrite map_size_empty; lia | exact Hnd |].
  intros k _; apply lookup_empty.
Qed.

End PyDict.

Lemma lookup_ids_seq (m : gmap Z string) (vs : list string) (a : nat) :
  (forall j, j < length vs -> m !! Z.of_nat (a + j) = vs !! j) ->
  MainPy.lookup_ids m (seq a (length vs)) = inr vs.
Proof.
  revert a; induction vs as [|v vs IH]; intros a Hm; [reflexivity|].
  cbn [length seq MainPy.lookup_ids].
  specialize (Hm 0) as H0; rewrite Nat.add_0_r in H0; rewrite H0 by (cbn; lia); cbn.
  rewrite IH; [reflexivity|].
  intros j Hj; replace (S a + j) with (a + S j) by lia; apply (Hm (S j)); cbn; lia.
Qed.

Lemma lookup_ids_ok (m : gmap Z string) (ids : list nat) :
  (exists vs, MainPy.lookup_ids m ids = inr vs) <-> (forall i, i ∈ ids -> is_Some (m !! Z.of_nat i)).
Proof.
  induction ids as [|i ids IH]; cbn [MainPy.lookup_ids].
  - split; [intros _ i Hi; inversion Hi | eauto].
  - destruct (m !! Z.of_nat i) as [l|] eqn:Hi.
    + destruct (MainPy.lookup_ids m ids) as [e|ls].
      * split; [intros [vs Hvs]; discriminate|].
        intros Hall; destruct IH as [_ IH]; destruct IH as [vs Hvs]; [|discriminate].
        intros j Hj; apply Hall; right; exact Hj.
      * split; [|eauto].
        intros _ j Hj; apply elem_of_cons in Hj; destruct Hj as [->|Hj]; [rewrite Hi; eauto|].
        apply (proj1 IH); [eauto | exact Hj].
    + split; [intros [vs Hvs]; discriminate|].
      intros Hall; destruct (Hall i) as [x Hx]; [left|congruence].
Qed.

(** The items of the two maps for string labels. *)
Lemma string_items (ls : list string) :
  let labels := sort_by String.leb (remove_dups ls) in
  let items := imap (fun i lbl => (lbl, Z.of_nat i)) labels in
  NoDup (fst <$> items) /\
  NoDup (fst <$> ((fun kv => (kv.2, kv.1)) <$> items)) /\
  (forall l i, (l, i) ∈ items <-> exists j, i = Z.of_nat j /\ labels !! j = Some l) /\
  (forall i l, (i, l) ∈ (fun kv => (kv.2, kv.1)) <$> items <-> (l, i) ∈ items).
Proof.
  intros labels items.
  destruct (sorted_unique String.leb ls) as (Hnd & _ & _); fold labels in Hnd.
  assert (Hin : forall l i, (l, i) ∈ items <-> exists j, i = Z.of_nat j /\ labels !! j = Some l).
  { intros l i; unfold items; rewrite elem_of_lookup_imap; split.
    - intros (j & y & Heq & Hj); injection Heq as -> ->; eauto.
    - intros (j & -> & Hj); exists j, l; split; [reflexivity | exact Hj]. }
  assert (Hsw : forall i l, (i, l) ∈ (fun kv => (kv.2, kv.1)) <$> items <-> (l, i) ∈ items).
  { intros i l; rewrite list_elem_of_fmap; split.
    - intros ([l' i'] & Heq & H); cbn in Heq; injection Heq as -> ->; exact H.
    - intros H; exists (l, i); split; [reflexivity | exact H]. }
  assert (E : forall (l : list string) (g : nat -> Z),
             fst <$> imap (fun i lbl => (lbl, g i)) l = l).
  { clear; induction l as [|x l IH]; intros g; [reflexivity|].
    rewrite imap_cons, fmap_cons; f_equal; exact (IH (fun i => g (S i))). }
  assert (Hfst : NoDup (fst <$> items)) by (unfold items; rewrite (E labels Z.of_nat); exact Hnd).
  split; [exact Hfst|split; [|split; [exact Hin | exact Hsw]]].
  apply NoDup_fmap_2_strong.
  - intros [i1 l1] [i2 l2] H1 H2 Heq; cbn in Heq; subst i2.
    apply Hsw, Hin in H1, H2; destruct H1 as (j1 & Hi1 & Hj1); destruct H2 as (j2 & Hi2 & Hj2).
    assert (j1 = j2) as -> by lia; congruence.
  - apply NoDup_fmap_2_strong; [|exact (NoDup_fmap_1 _ _ Hfst)].
    intros [l1 i1] [l2 i2] _ _ Heq; cbn in Heq; congruence.
Qed.

Lemma string_maps_spec (df : Frame) (ls : list string) :
  label_col df = LStr ls ->
  let label2id := (build_label_maps df).1 in
  let id2label := (build_label_maps df).2 in
  (forall l, is_Some (label2id !! l) <-> l ∈ ls) /\
  (forall l i, label2id !! l = Some i -> id2label !! i = Some l) /\
  (forall i, is_Some (id2label !! i) <-> (0 <= i < Z.of_nat (length (remove_dups ls)))%Z) /\
  MainPy.classes_ordered id2label = inr (sort_by String.leb (remove_dups ls)).
Proof.
  intros Hc; unfold build_label_maps, label_items; rewrite Hc; cbn [fst snd].
  destruct (string_items ls) as (Hf & Hs & Hin & Hsw).
  destruct (sorted_unique String.leb ls) as (Hnd & Hel & Hlen).
  set (labels := sort_by String.leb (remove_dups ls)) in *.
  set (items := imap (fun i lbl => (lbl, Z.of_nat i)) labels) in *.
  assert (Hl2i : forall l i, py_dict items !! l = Some i <->
                   exists j, i = Z.of_nat j /\ labels !! j = Some l).
  { intros l i; rewrite py_dict_lookup by exact Hf; apply Hin. }
  assert (Hi2l : forall i l, py_dict ((fun kv => (kv.2, kv.1)) <$> items) !! i = Some l <->
                   exists j, i = Z.of_nat j /\ labels !! j = Some l).
  { intros i l; rewrite py_dict_lookup by exact Hs; rewrite Hsw; apply Hin. }
  split; [|split; [|split]].
  - intros l; split.
    + intros [i Hi]; apply Hl2i in Hi; destruct Hi as (j & _ & Hj).
      apply Hel, (list_elem_of_lookup_2 _ j); exact Hj.
    + intros Hl; apply Hel, list_elem_of_lookup_1 in Hl; destruct Hl as [j Hj].
      exists (Z.of_nat j); apply Hl2i; eauto.
  - intros l i Hi; apply Hi2l, Hl2i, Hi.
  - intros i; rewrite <- Hlen; split.
    + intros [l Hl]; apply Hi2l in Hl; destruct Hl as (j & -> & Hj).
      apply lookup_lt_Some in Hj; lia.
    + intros Hi.
      destruct (lookup_lt_is_Some_2 labels (Z.to_nat i)) as [l Hl]; [lia|].
      exists l; apply Hi2l; exists (Z.to_nat i); split; [lia | exact Hl].
  - unfold MainPy.classes_ordered.
    rewrite py_dict_size by exact Hs.
    rewrite length_fmap; unfold items; rewrite length_imap; fold items.
    apply lookup_ids_seq; intros j Hj; cbn [Nat.add].
    destruct (lookup_lt_is_Some_2 labels j) as [l Hl]; [exact Hj|].
    rewrite Hl; apply Hi2l; eauto.
Qed.

(** X10: for string labels, [build_label_maps] gives every training label
    an id and no other string one; [id2label] maps each id back to its
    label and its keys are exactly [0 .. K-1] ([K] distinct labels); so in
    [main] the class list [[id2label[i] for i in range(num_labels)]] is
    the sorted list of distinct labels. *)
Theorem X10_string_label_maps (df : Frame) (ls : list string) :
  label_col df = LStr ls ->
  let label2id := (build_label_maps df).1 in
  let id2label := (build_label_maps df).2 in
  (forall l, is_Some (label2id !! l) <-> l ∈ ls) /\
  (forall l i, label2id !! l = Some i -> id2label !! i = Some l) /\
  (forall i, is_Some (id2label !! i) <-> (0 <= i < Z.of_nat (length (remove_dups ls)))%Z) /\
  MainPy.classes_ordered id2label = inr (sort_by String.leb (remove_dups ls)).
Proof. apply string_maps_spec. Qed.

Lemma X10_witness :
  label_col (mkFrame ["text"; "label"] ["a"; "b"; "c"] (LStr ["pos"; "neg"; "pos"])) =
    LStr ["pos"; "neg"; "pos"] /\
  let label2id := (build_label_maps
                     (mkFrame ["text"; "label"] ["a"; "b"; "c"] (LStr ["pos"; "neg"; "pos"]))).1 in
  let id2label := (build_label_maps
                     (mkFrame ["text"; "label"] ["a"; "b"; "c"] (LStr ["pos"; "neg"; "pos"]))).2 in
  (forall l, is_Some (label2id !! l) <-> l ∈ ["pos"; "neg"; "pos"]) /\
  (forall l i, label2id !! l = Some i -> id2label !! i = Some l) /\
  (forall i, is_Some (id2label !! i) <->
             (0 <= i < Z.of_nat (length (remove_dups ["pos"; "neg"; "pos"])))%Z) /\
  MainPy.classes_ordered id2label = inr (sort_by String.leb (remove_dups ["pos"; "neg"; "pos"])).
Proof.
  split; [reflexivity|].
  apply (X10_string_label_maps
           (mkFrame ["text"; "label"] ["a"; "b"; "c"] (LStr ["pos"; "neg"; "pos"]))
           ["pos"; "neg"; "pos"]); reflexivity.
Defined.

Lemma int_items_fst (l : list Z) :
  fst <$> ((fun kv => (kv.2, kv.1)) <$> ((fun lbl => (pretty lbl, lbl)) <$> l)) = l.
Proof. induction l as [|x l IH]; [reflexivity|]; rewrite !fmap_cons, IH; reflexivity. Qed.

Lemma int_items_elem (l : list Z) (z : Z) (s : string) :
  (z, s) ∈ (fun kv => (kv.2, kv.1)) <$> ((fun lbl => (pretty lbl, lbl)) <$> l) <->
  z ∈ l /\ s = pretty z.
Proof.
  rewrite <- list_fmap_compose, list_elem_of_fmap; split.
  - intros (x & Heq & Hx); cbn in Heq; injection Heq as -> ->; auto.
  - intros [Hz ->]; exists z; auto.
Qed.

(** X11: for integer labels, [id2label] maps each distinct label [z] to
    [str(z)] and has no other key; [main]'s class list
    [[id2label[i] for i in range(num_labels)]] raises [KeyError] unless
    every [i < K] is a label, i.e. unless the labels are exactly
    [0 .. K-1] (labels [0] and [2] make it fail on [1]). *)
Theorem X11_int_labels_must_be_dense (df : Frame) (zs : list Z) :
  label_col df = LInt zs ->
  let id2label := (build_label_maps df).2 in
  (forall z, id2label !! z = if bool_decide (z ∈ zs) then Some (pretty z) else None) /\
  ((exists cls, MainPy.classes_ordered id2label = inr cls) <->
   (forall i, i < length (remove_dups zs) -> Z.of_nat i ∈ zs)).
Proof.
  intros Hc; unfold build_label_maps, label_items; rewrite Hc; cbn [fst snd].
  destruct (sorted_unique Z.leb zs) as (Hnd & Hel & Hlen).
  set (labels := sort_by Z.leb (remove_dups zs)) in *.
  set (items := (fun kv => (kv.2, kv.1)) <$> ((fun lbl => (pretty lbl, lbl)) <$> labels)).
  assert (Hf : NoDup (fst <$> items)) by (unfold items; rewrite int_items_fst; exact Hnd).
  assert (Hlk : forall z, py_dict items !! z = if bool_decide (z ∈ zs) then Some (pretty z) else None).
  { intros z; case_bool_decide as Hz.
    - apply py_dict_lookup; [exact Hf|]; apply int_items_elem; split; [apply Hel, Hz | reflexivity].
    - destruct (py_dict items !! z) as [s|] eqn:E; [|reflexivity].
      apply py_dict_lookup in E; [|exact Hf]; apply int_items_elem in E.
      exfalso; apply Hz, Hel, E. }
  split; [exact Hlk|].
  unfold MainPy.classes_ordered; rewrite py_dict_size by exact Hf.
  unfold items; rewrite !length_fmap; fold items; rewrite Hlen, lookup_ids_ok.
  split.
  - intros H i Hi; specialize (H i); rewrite Hlk in H.
    case_bool_decide as Hz; [exact Hz|].
    destruct H as [x Hx]; [apply elem_of_seq; lia | discriminate].
  - intros H i Hi; apply elem_of_seq in Hi; rewrite Hlk.
    rewrite bool_decide_true by (apply H; lia); eauto.
Qed.

Lemma X11_witness :
  label_col (mkFrame ["text"; "label"] ["a"; "b"] (LInt [0; 2]%Z)) = LInt [0; 2]%Z /\
  let id2label := (build_label_maps (mkFrame ["text"; "label"] ["a"; "b"] (LInt [0; 2]%Z))).2 in
  (forall z, id2label !! z = if bool_decide (z ∈ [0; 2]%Z) then Some (pretty z) else None) /\
  ((exists cls, MainPy.classes_ordered id2label = inr cls) <->
   (forall i, i < length (remove_dups [0; 2]%Z) -> Z.of_nat i ∈ [0; 2]%Z)).
Proof.
  split; [reflexivity|].
  apply (X11_int_labels_must_be_dense (mkFrame ["text"; "label"] ["a"; "b"] (LInt [0; 2]%Z))
           [0; 2]%Z); reflexivity.
Defined.

Lemma map_labels_Forall2 (m : gmap string Z) (ls : list string) (ids : list Z) :
  map_labels m ls = Some ids -> Forall2 (fun l i => m !! l = Some i) ls ids.
Proof.
  revert ids; induction ls as [|l ls IH]; intros ids H; cbn [map_labels] in H.
  - injection H as <-; constructor.
  - destruct (m !! l) as [i|] eqn:Hl; [|discriminate].
    destruct (map_labels m ls) as [ids'|]; [|discriminate].
    injection H as <-; constructor; [exact Hl | apply IH; reflexivity].
Qed.

Lemma map_labels_is_Some (m : gmap string Z) (ls : list string) :
  is_Some (map_labels m ls) <-> (forall l, l ∈ ls -> is_Some (m !! l)).
Proof.
  induction ls as [|l ls IH]; cbn [map_labels].
  - split; [intros _ l Hl; inversion Hl | eauto].
  - destruct (m !! l) as [i|] eqn:Hl.
    + destruct (map_labels m ls) as [ids|] eqn:Hr.
      * split; [intros _ x Hx | eauto].
        apply elem_of_cons in Hx as [->|Hx]; [eauto|].
        apply IH; [eauto | exact Hx].
      * split; [intros [? H]; discriminate|].
        intros H; apply IH; intros x Hx; apply H, elem_of_cons; auto.
    + split; [intros [? H]; discriminate|].
      intros H; destruct (H l) as [? Hs]; [apply elem_of_cons; auto|].
      rewrite Hs in Hl; discriminate.
Qed.

(** X12: [apply_label_map] with the training label map: on the training
    frame it succeeds and each id maps back through [id2label] to the
    original label; on any string frame it succeeds iff every label of
    the frame is a training label (an unseen label is the cast error);
    an integer frame passes unchanged. *)
Theorem X12_apply_label_map (train : Frame) (ls : list string) :
  label_col train = LStr ls ->
  let label2id := (build_label_maps train).1 in
  let id2label := (build_label_maps train).2 in
  (exists ids, apply_label_map train label2id =
                 Some (mkFrame (columns train) (text_col train) (LInt ids)) /\
               (fun i => id2label !! i) <$> ids = Some <$> ls) /\
  (forall df vs, label_col df = LStr vs ->
     (is_Some (apply_label_map df label2id) <-> forall v, v ∈ vs -> v ∈ ls)) /\
  (forall df zs, label_col df = LInt zs -> apply_label_map df label2id = Some df).
Proof.
  intros Hc; cbv zeta.
  destruct (string_maps_spec train ls Hc) as (Hdom & Hback & _ & _); cbv zeta in Hdom, Hback.
  split; [|split].
  - destruct (proj2 (map_labels_is_Some (build_label_maps train).1 ls)) as [ids Hids].
    { intros l Hl; apply Hdom, Hl. }
    exists ids; unfold apply_label_map; rewrite Hc, Hids; split; [reflexivity|].
    apply map_labels_Forall2 in Hids; clear Hc Hdom.
    induction Hids as [|l i ls ids Hli _ IH]; [reflexivity|].
    rewrite !fmap_cons, IH, (Hback l i Hli); reflexivity.
  - intros df vs Hv; unfold apply_label_map; rewrite Hv.
    assert (E : is_Some (map_labels (build_label_maps train).1 vs) <-> (forall v, v ∈ vs -> v ∈ ls)).
    { rewrite map_labels_is_Some; split; intros H v Hv'; apply Hdom, H, Hv'. }
    rewrite <- E; destruct (map_labels _ vs); split; intros [? H]; eauto; discriminate.
  - intros df zs Hz; unfold apply_label_map; rewrite Hz; reflexivity.
Qed.

Lemma X12_witness :
  label_col (mkFrame ["text"; "label"] ["a"; "b"] (LStr ["pos"; "neg"])) = LStr ["pos"; "neg"] /\
  let label2id := (build_label_maps (mkFrame ["text"; "label"] ["a"; "b"] (LStr ["pos"; "neg"]))).1 in
  let id2label := (build_label_maps (mkFrame ["text"; "label"] ["a"; "b"] (LStr ["pos"; "neg"]))).2 in
  (exists ids, apply_label_map (mkFrame ["text"; "label"] ["a"; "b"] (LStr ["pos"; "neg"])) label2id =
                 Some (mkFrame ["text"; "label"] ["a"; "b"] (LInt ids)) /\
               (fun i => id2label !! i) <$> ids = Some <$> ["pos"; "neg"]) /\
  (forall df vs, label_col df = LStr vs ->
     (is_Some (apply_label_map df label2id) <-> forall v, v ∈ vs -> v ∈ ["pos"; "neg"])) /\
  (forall df zs, label_col df = LInt zs -> apply_label_map df label2id = Some df).
Proof.
  split; [reflexivity|].
  apply (X12_apply_label_map (mkFrame ["text"; "label"] ["a"; "b"] (LStr ["pos"; "neg"]))
           ["pos"; "neg"]); reflexivity.
Defined.

(** ** Class weights, [TextDataset], [get_stats] *)

Section ClassWeights.
Import QArith_base MainPy.

Lemma weight_antitone (n k a b : Z) :
  (0 <= n)%Z -> (0 <= k)%Z -> (1 <= a <= b)%Z ->
  inject_Z n / (inject_Z k * inject_Z b) <= inject_Z n / (inject_Z k * inject_Z a).
Proof.
  intros Hn Hk Hab.
  rewrite <- !inject_Z_mult.
  unfold Qle, Qdiv, Qmult, Qinv, inject_Z; cbn [Qnum Qden].
  destruct (k * b)%Z as [|p|p] eqn:Eb; destruct (k * a)%Z as [|q|q] eqn:Ea;
    cbn [Qnum Qden]; rewrite ?Pos.mul_1_l, ?Pos.mul_1_r, ?Z.mul_1_r;
    rewrite ?Pos2Z.inj_mul; nia.
Qed.

Lemma counts_get_pos (labels : list Z) (i : Z) : (1 <= counts_get labels i)%Z.
Proof. unfold counts_get; destruct (count_occ Z.eq_dec labels i); lia. Qed.

Lemma default_class_weights_lookup (labels : list Z) (K i : nat) :
  (i < K)%nat ->
  default_class_weights labels K !! i =
  Some (inject_Z (Z.of_nat (length labels)) /
        (inject_Z (Z.of_nat K) * inject_Z (counts_get labels (Z.of_nat i)))).
Proof.
  intros Hi; unfold default_class_weights.
  rewrite list_lookup_fmap, lookup_seq_lt by exact Hi; reflexivity.
Qed.

(** X13: the default class weights [N / (K * counts.get(i, 1))] always
    pass main's length check (one weight per class); a class with more
    training samples never gets a larger weight; a class absent from the
    training labels gets the weight of a class seen once. User-given
    weights pass iff there are exactly [K] of them. *)
Theorem X13_class_weights (labels : list Z) (K : nat) :
  resolve_class_weights None labels K = inr (default_class_weights labels K) /\
  length (default_class_weights labels K) = K /\
  (forall i j wi wj,
     default_class_weights labels K !! i = Some wi ->
     default_class_weights labels K !! j = Some wj ->
     (count_occ Z.eq_dec labels (Z.of_nat i) <= count_occ Z.eq_dec labels (Z.of_nat j))%nat ->
     Qle wj wi) /\
  (forall i j, (i < K)%nat -> (j < K)%nat ->
     count_occ Z.eq_dec labels (Z.of_nat i) = 0%nat ->
     count_occ Z.eq_dec labels (Z.of_nat j) = 1%nat ->
     default_class_weights labels K !! i = default_class_weights labels K !! j) /\
  (forall w, resolve_class_weights (Some w) labels K = inr w <-> length w = K).
Proof.
  assert (Hlen : length (default_class_weights labels K) = K).
  { unfold default_class_weights; rewrite length_fmap, length_seq; reflexivity. }
  split; [|split; [exact Hlen|split; [|split]]].
  - unfold resolve_class_weights; rewrite Hlen, Nat.eqb_refl; reflexivity.
  - intros i j wi wj Hi Hj Hc.
    pose proof (lookup_lt_Some _ _ _ Hi) as Hik; pose proof (lookup_lt_Some _ _ _ Hj) as Hjk.
    rewrite Hlen in Hik, Hjk.
    rewrite default_class_weights_lookup in Hi, Hj by assumption.
    injection Hi as <-; injection Hj as <-.
    apply weight_antitone; [lia | lia|].
    split; [apply counts_get_pos|].
    unfold counts_get.
    destruct (count_occ Z.eq_dec labels (Z.of_nat i)) eqn:Ei;
      destruct (count_occ Z.eq_dec labels (Z.of_nat j)) eqn:Ej; lia.
  - intros i j Hi Hj Ei Ej.
    rewrite !default_class_weights_lookup by assumption.
    unfold counts_get; rewrite Ei, Ej; reflexivity.
  - intros w; unfold resolve_class_weights.
    destruct (Nat.eqb_spec (length w) K); split; intros H; congruence.
Qed.

End ClassWeights.

Section Dataset.
Import Data.

Lemma py_index_spec {A} (l : list A) (i : Z) :
  py_index l i =
  if bool_decide (- Z.of_nat (length l) <= i < Z.of_nat (length l))%Z
  then l !! Z.to_nat (if Z.ltb i 0 then i + Z.of_nat (length l) else i)%Z
  else None.
Proof.
  unfold py_index; cbv zeta.
  destruct (Z.ltb_spec i 0) as [Hi|Hi]; cbv iota.
  - destruct (Z.leb_spec 0 (i + Z.of_nat (length l))%Z);
      destruct (Z.ltb_spec (i + Z.of_nat (length l))%Z (Z.of_nat (length l)));
      cbn [andb]; case_bool_decide; try reflexivity; lia.
  - destruct (Z.leb_spec 0 i); destruct (Z.ltb_spec i (Z.of_nat (length l)));
      cbn [andb]; case_bool_decide; try reflexivity; lia.
Qed.

Lemma py_index_is_Some {A} (l : list A) (i : Z) :
  is_Some (py_index l i) <-> (- Z.of_nat (length l) <= i < Z.of_nat (length l))%Z.
Proof.
  rewrite py_index_spec; case_bool_decide as H.
  - split; [auto|intros _]; apply lookup_lt_is_Some_2.
    destruct (Z.ltb_spec i 0); lia.
  - split; [intros [? E]; discriminate | intros; contradiction].
Qed.

(** X14: [TextDataset(texts, labels)] raises iff the lengths differ;
    then [d[i]] is defined exactly for [-len <= i < len] (Python
    indexing, [IndexError] elsewhere), [d[j]] is the [j]-th text with the
    [j]-th label, and [d[j - len]] is [d[j]]. *)
Theorem X14_text_dataset (texts : list string) (labels : list Z) :
  (text_dataset texts labels = None <-> length texts <> length labels) /\
  (forall d, text_dataset texts labels = Some d ->
     (forall i, is_Some (getitem d i) <->
                (- Z.of_nat (length texts) <= i < Z.of_nat (length texts))%Z) /\
     (forall j t l, texts !! j = Some t -> labels !! j = Some l ->
        getitem d (Z.of_nat j) = Some (t, l) /\
        getitem d (Z.of_nat j - Z.of_nat (length texts))%Z = Some (t, l))).
Proof.
  unfold text_dataset; split.
  - destruct (Nat.eqb_spec (length texts) (length labels)); split; intros H;
      congruence.
  - intros d Hd; destruct (Nat.eqb_spec (length texts) (length labels)) as [Heq|];
      [|discriminate]; injection Hd as <-.
    split.
    + intros i; unfold getitem; cbn [ds_texts ds_labels].
      destruct (py_index texts i) as [x|] eqn:Et.
      * assert (Hl : is_Some (py_index labels i)).
        { apply py_index_is_Some; rewrite <- Heq; apply py_index_is_Some; eauto. }
        destruct Hl as [y Hy]; rewrite Hy; split; [intros _ | eauto].
        apply py_index_is_Some; eauto.
      * split; [intros [? H]; discriminate|].
        intros Hi; apply py_index_is_Some in Hi; destruct Hi as [? E]; congruence.
    + intros j t l Ht Hl; unfold getitem; cbn [ds_texts ds_labels].
      pose proof (lookup_lt_Some _ _ _ Ht) as Hj.
      rewrite !py_index_spec, <- !Heq.
      rewrite !bool_decide_true by lia.
      destruct (Z.ltb_spec (Z.of_nat j) 0); [lia|].
      destruct (Z.ltb_spec (Z.of_nat j - Z.of_nat (length texts)) 0); [|lia].
      replace (Z.to_nat (Z.of_nat j)) with j by lia.
      replace (Z.to_nat (Z.of_nat j - Z.of_nat (length texts) + Z.of_nat (length texts)))
        with j by lia.
      rewrite Ht, Hl; split; reflexivity.
Qed.

Lemma sum_count_occ_filter (l u : list Z) :
  NoDup u ->
  sum_list_with (count_occ Z.eq_dec l) u = length (filter (fun x => x ∈ u) l).
Proof.
  intros Hu; induction l as [|a l IH].
  - clear Hu; induction u; cbn; auto.
  - rewrite filter_cons.
    assert (E : sum_list_with (count_occ Z.eq_dec (a :: l)) u =
                sum_list_with (count_occ Z.eq_dec l) u + (if decide (a ∈ u) then 1 else 0)).
    { clear IH; induction u as [|b u IHu]; [reflexivity|].
      apply NoDup_cons in Hu as [Hb Hu]; cbn [sum_list_with].
      rewrite IHu by exact Hu.
      destruct (Z.eq_dec a b) as [->|Hab];
        [rewrite count_occ_cons_eq by reflexivity | rewrite count_occ_cons_neq by exact Hab];
        destruct (decide (_ ∈ b :: u)) as [Ha1|Ha1]; destruct (decide (_ ∈ u)) as [Ha2|Ha2];
        rewrite ?elem_of_cons in Ha1; try lia; exfalso; intuition congruence. }
    rewrite E, IH; destruct (decide (a ∈ u)); cbn [length]; lia.
Qed.

Lemma sum_list_with_pair {A B} (f : A -> B) (c : A -> nat) (l : list A) :
  sum_list_with snd ((fun u => (f u, c u)) <$> l) = sum_list_with c l.
Proof. induction l as [|a l IH]; [reflexivity|]; rewrite fmap_cons; cbn; rewrite IH; reflexivity. Qed.

(** X15: the label statistics of a dataset: one entry per distinct label,
    each counting at least one sample, and the counts add up to
    [num_samples]; [num_classes] is the number of entries. *)
Theorem X15_get_stats (texts : list string) (labels : list Z) (d : TextDataset) :
  text_dataset texts labels = Some d ->
  let s := get_stats d in
  sum_list_with snd (label_counts s) = num_samples s /\
  num_classes s = length (label_counts s) /\
  NoDup (fst <$> label_counts s) /\
  (forall z, z ∈ fst <$> label_counts s <-> z ∈ labels) /\
  Forall (fun zc => 1 <= zc.2) (label_counts s).
Proof.
  unfold text_dataset; destruct (Nat.eqb_spec (length texts) (length labels)) as [Heq|];
    [|discriminate]; intros Hd; injection Hd as <-; cbv zeta.
  unfold get_stats; cbn [label_counts num_samples num_classes ds_texts ds_labels].
  destruct (sorted_unique Z.leb labels) as (Hnd & Hel & Hlen).
  set (us := Utils.sort_by Z.leb (remove_dups labels)) in *.
  assert (Hfst : fst <$> ((fun u => (u, count_occ Z.eq_dec labels u)) <$> us) = us).
  { rewrite <- list_fmap_compose; apply list_fmap_id. }
  split; [|split; [|split; [|split]]].
  - rewrite sum_list_with_pair, sum_count_occ_filter by exact Hnd.
    rewrite Heq; symmetry.
    assert (Hall : forall x, x ∈ labels -> x ∈ us) by (intros x Hx; apply Hel, Hx).
    clearbody us; clear -Hall; induction labels as [|a l IH]; [reflexivity|].
    rewrite filter_cons, decide_True by (apply Hall, elem_of_cons; auto).
    cbn [length]; rewrite IH; [reflexivity|].
    intros x Hx; apply Hall, elem_of_cons; auto.
  - rewrite length_fmap; reflexivity.
  - rewrite Hfst; exact Hnd.
  - intros z; rewrite Hfst; apply Hel.
  - apply Forall_fmap, Forall_forall; intros u Hu; cbn.
    apply Hel in Hu; apply count_occ_In, list_elem_of_In, Hu.
Qed.

Lemma X15_witness :
  text_dataset ["a"; "b"; "c"] [1; 0; 1]%Z = Some (mkDataset ["a"; "b"; "c"] [1; 0; 1]%Z) /\
  let s := get_stats (mkDataset ["a"; "b"; "c"] [1; 0; 1]%Z) in
  sum_list_with snd (label_counts s) = num_samples s /\
  num_classes s = length (label_counts s) /\
  NoDup (fst <$> label_counts s) /\
  (forall z, z ∈ fst <$> label_counts s <-> z ∈ [1; 0; 1]%Z) /\
  Forall (fun zc => 1 <= zc.2) (label_counts s).
Proof.
  split; [reflexivity|].
  apply (X15_get_stats ["a"; "b"; "c"] [1; 0; 1]%Z); reflexivity.
Defined.

End Dataset.

(** ** [model.py] *)

Section Model.
Import ModelPy.

Lemma freeze_numel (ps : list Param) :
  sum_list_with numel (freeze ps) = sum_list_with numel ps.
Proof. unfold freeze; induction ps as [|p ps IH]; cbn; [reflexivity | rewrite IH; reflexivity]. Qed.

Lemma freeze_trainable (ps : list Param) :
  sum_list_with (fun p => if requires_grad p then numel p else 0) (freeze ps) = 0.
Proof. unfold freeze; induction ps as [|p ps IH]; cbn; [reflexivity | exact IH]. Qed.

Lemma trainable_le_numel (ps : list Param) :
  sum_list_with (fun p => if requires_grad p then numel p else 0) ps <= sum_list_with numel ps.
Proof. induction ps as [|p ps IH]; cbn; [lia|]; destruct (requires_grad p); lia. Qed.

Lemma freeze_prefix_numel (ls : list (list Param)) (g : nat -> list Param -> list Param) :
  (forall i l, g i l = freeze l \/ g i l = l) ->
  sum_list_with numel (concat (imap g ls)) = sum_list_with numel (concat ls).
Proof.
  revert g; induction ls as [|l ls IH]; intros g Hg; [reflexivity|].
  rewrite imap_cons; cbn [concat]; rewrite !sum_list_with_app.
  rewrite (IH (g ∘ S)) by (intros i x; apply Hg).
  destruct (Hg 0 l) as [-> | ->]; rewrite ?freeze_numel; reflexivity.
Qed.

Lemma freeze_prefix_trainable (k : Z) (i0 : nat) (ls : list (list Param))
    (g : nat -> list Param -> list Param) :
  (forall i l, g i l = if Z.ltb (Z.of_nat (i0 + i)) k then freeze l else l) ->
  sum_list_with (fun p => if requires_grad p then numel p else 0) (concat (imap g ls)) =
  sum_list_with (fun p => if requires_grad p then numel p else 0)
    (concat (drop (Z.to_nat k - i0) ls)).
Proof.
  revert i0 g; induction ls as [|l ls IH]; intros i0 g Hg.
  - rewrite drop_nil; reflexivity.
  - rewrite imap_cons; cbn [concat]; rewrite sum_list_with_app.
    rewrite (IH (S i0) (g ∘ S)) by (intros i x; unfold compose; rewrite Hg;
      replace (i0 + S i) with (S i0 + i) by lia; reflexivity).
    rewrite Hg, Nat.add_0_r.
    destruct (Z.ltb_spec (Z.of_nat i0) k).
    + rewrite freeze_trainable.
      replace (Z.to_nat k - i0) with (S (Z.to_nat k - S i0)) by lia.
      reflexivity.
    + replace (Z.to_nat k - i0) with 0 by lia; replace (Z.to_nat k - S i0) with 0 by lia.
      cbn [drop concat]; rewrite sum_list_with_app; reflexivity.
Qed.

Lemma freeze_bert_spec (m : Model) (k : Z) :
  (arch m = Bert \/ arch m = Roberta) -> (0 < k)%Z ->
  let r := freeze_layers_ m k in
  r.2 = [] /\
  length (layers r.1) = length (layers m) /\
  total_params r.1 = total_params m /\
  trainable_params r.1 =
    sum_list_with (fun p => if requires_grad p then numel p else 0)
      (concat (drop (Z.to_nat k) (layers m))) +
    sum_list_with (fun p => if requires_grad p then numel p else 0) (rest m).
Proof.
  intros Ha Hk; cbv zeta; unfold freeze_layers_.
  destruct (Z.leb_spec k 0) as [Hk'|_]; [lia|].
  destruct m as [a ie ls rs]; cbn [arch] in Ha |- *.
  destruct Ha as [-> | ->]; cbn [fst snd layers];
    (split; [reflexivity|]); (split; [apply length_imap|]);
    unfold total_params, trainable_params, parameters; cbn [input_embeddings layers rest];
    rewrite !sum_list_with_app, freeze_numel, freeze_trainable;
    rewrite (freeze_prefix_numel ls) by (intros i x; destruct (Z.ltb _ _); auto);
    rewrite (freeze_prefix_trainable k 0 ls) by (intros; reflexivity);
    rewrite Nat.sub_0_r; split; reflexivity.
Qed.

(** X16: [_freeze_layers(model, k)] with [k > 0] on a BERT or RoBERTa
    model freezes the input embeddings and the first [k] encoder layers
    ([k] beyond the layer count freezes them all) and prints nothing: the
    parameter count is unchanged and the trainable ones are those of the
    layers from index [k] on and of the rest of the model. *)
Theorem X16_freeze_bert_layers (m : Model) (k : Z) :
  (arch m = Bert \/ arch m = Roberta) -> (0 < k)%Z ->
  let r := freeze_layers_ m k in
  r.2 = [] /\
  length (layers r.1) = length (layers m) /\
  total_params r.1 = total_params m /\
  trainable_params r.1 =
    sum_list_with (fun p => if requires_grad p then numel p else 0)
      (concat (drop (Z.to_nat k) (layers m))) +
    sum_list_with (fun p => if requires_grad p then numel p else 0) (rest m).
Proof. apply freeze_bert_spec. Qed.

Lemma X16_witness :
  (arch (mkModel Bert [mkParam 10 true] [[mkParam 4 true]; [mkParam 4 true]] [mkParam 2 true])
     = Bert \/
   arch (mkModel Bert [mkParam 10 true] [[mkParam 4 true]; [mkParam 4 true]] [mkParam 2 true])
     = Roberta) /\ (0 < 1)%Z /\
  let r := freeze_layers_
             (mkModel Bert [mkParam 10 true] [[mkParam 4 true]; [mkParam 4 true]] [mkParam 2 true])
             1 in
  r.2 = [] /\
  length (layers r.1) = 2 /\
  total_params r.1 = 20 /\
  trainable_params r.1 = 6.
Proof.
  split; [left; reflexivity|]; split; [lia|]; cbv zeta.
  destruct (X16_freeze_bert_layers
              (mkModel Bert [mkParam 10 true] [[mkParam 4 true]; [mkParam 4 true]] [mkParam 2 true])
              1 (or_introl eq_refl) ltac:(lia)) as (Hw & Hl & Ht & Htr).
  split; [exact Hw|]; split; [exact Hl|]; split; [exact Ht | exact Htr].
Defined.

(** X17: [_freeze_layers] on any model keeps the parameter count and
    never makes more parameters trainable; a count [k <= 0] changes
    nothing; on an architecture without [bert]/[roberta] encoder layers
    ([k > 0]) only the input embeddings are frozen and the warning is
    printed iff the config has [num_hidden_layers]. *)
Theorem X17_freeze_any_arch (m : Model) (k : Z) :
  let r := freeze_layers_ m k in
  total_params r.1 = total_params m /\
  trainable_params r.1 <= trainable_params m /\
  ((k <= 0)%Z -> r = (m, [])) /\
  (forall c, arch m = OtherArch c -> (0 < k)%Z ->
     trainable_params r.1 =
       sum_list_with (fun p => if requires_grad p then numel p else 0) (concat (layers m)) +
       sum_list_with (fun p => if requires_grad p then numel p else 0) (rest m) /\
     r.2 = match c with Some n => [FreezeUnsupported n k] | None => [] end).
Proof.
  cbv zeta; unfold freeze_layers_.
  destruct (Z.leb_spec k 0) as [Hk|Hk].
  - cbn [fst]; split; [reflexivity|]; split; [lia|]; split; [reflexivity | intros c _ H; lia].
  - destruct m as [a ie ls rs]; cbn [arch input_embeddings layers rest].
    unfold total_params, trainable_params, parameters.
    assert (Hie := trainable_le_numel ie).
    assert (Hls : forall g, (forall i l, g i l = if Z.ltb (Z.of_nat i) k then freeze l else l) ->
      sum_list_with (fun p => if requires_grad p then numel p else 0) (concat (imap g ls)) <=
      sum_list_with (fun p => if requires_grad p then numel p else 0) (concat ls)).
    { intros g Hg; rewrite (freeze_prefix_trainable k 0 ls g) by exact Hg.
      rewrite Nat.sub_0_r.
      rewrite <- (take_drop (Z.to_nat k) ls) at 2.
      rewrite concat_app, sum_list_with_app; lia. }
    destruct a as [| |[n|]]; cbn [fst snd input_embeddings layers rest];
      rewrite !sum_list_with_app, freeze_numel, freeze_trainable;
      try rewrite (freeze_prefix_numel ls) by (intros i x; destruct (Z.ltb _ _); auto).
    1,2: split; [reflexivity|]; split; [pose proof (Hls _ (fun _ _ => eq_refl)); lia|];
      split; [intros; lia | intros c Hc; discriminate].
    all: split; [reflexivity|]; split; [lia|]; split; [intros; lia|].
    all: intros c Hc _; injection Hc as <-; split; reflexivity.
Qed.

Lemma dropout_config_lookup (dr : option PyVal) (k : string) :
  dropout_config dr !! k =
  if bool_decide (k ∈ ["hidden_dropout_prob"; "attention_probs_dropout_prob"; "dropout";
                       "attention_dropout"; "classifier_dropout"]) then dr else None.
Proof.
  destruct dr as [d|]; cbn [dropout_config].
  - rewrite !lookup_insert, lookup_empty.
    repeat case_decide; subst; case_bool_decide as Hb; try reflexivity.
    all: exfalso; first [contradiction | apply Hb; set_solver
                        | rewrite !elem_of_cons, elem_of_nil in Hb; intuition congruence].
  - rewrite lookup_empty; case_bool_decide; reflexivity.
Qed.

(** X18: [build_model]'s [freeze_layers]: [None], [0] and any value below
    [-1] load the model untouched (nothing frozen, no message), and so
    does [-1] when the config has no [num_hidden_layers]; [-1] on a BERT
    or RoBERTa model whose config gives its layer count freezes the
    embeddings and every encoder layer, leaving only the rest of the
    model (pooler, classifier, ...) trainable. *)
Theorem X18_build_model_freeze_arg (cl : option nat)
    (fp : gmap string PyVal -> option Model)
    (dr : option PyVal) (kw : gmap string PyVal) :
  let plain := (fun m => (m, [])) <$> (call_kwargs dr kw ≫= fp) in
  build_model cl fp dr None kw = plain /\
  (forall k, (k < -1 \/ k = 0)%Z -> build_model cl fp dr (Some k) kw = plain) /\
  (cl = None -> build_model cl fp dr (Some (-1)%Z) kw = plain) /\
  (forall kw' m0, call_kwargs dr kw = Some kw' -> fp kw' = Some m0 ->
     (arch m0 = Bert \/ arch m0 = Roberta) ->
     cl = Some (length (layers m0)) -> 0 < length (layers m0) ->
     exists m', build_model cl fp dr (Some (-1)%Z) kw = Some (m', []) /\
       total_params m' = total_params m0 /\
       trainable_params m' =
         sum_list_with (fun p => if requires_grad p then numel p else 0) (rest m0)).
Proof.
  cbv zeta; unfold build_model; split; [|split; [|split]].
  - destruct (call_kwargs dr kw); [cbn [mbind option_bind]|reflexivity].
    destruct (fp _); reflexivity.
  - intros k Hk.
    destruct (Z.eqb_spec k (-1)) as [->|_]; [lia|].
    destruct (call_kwargs dr kw); [|reflexivity]; cbn [mbind option_bind].
    destruct (fp _); [|reflexivity]; cbn [fmap option_fmap option_map].
    destruct (Z.leb_spec 0 k); [|reflexivity].
    replace k with 0%Z by lia; reflexivity.
  - intros ->; cbn [default Z.of_nat Z.eqb].
    destruct (call_kwargs dr kw); [cbn [mbind option_bind]|reflexivity].
    destruct (fp _); reflexivity.
  - intros kw' m0 Hkw Hfp Ha Hcl Hpos; rewrite Hcl, Hkw, Hfp, Z.eqb_refl;
      cbn [default from_option id].
    destruct (Z.leb_spec 0 (Z.of_nat (length (layers m0)))) as [_|]; [|lia].
    destruct (freeze_bert_spec m0 (Z.of_nat (length (layers m0)))
                Ha ltac:(lia)) as (Hw & _ & Ht & Htr).
    exists (freeze_layers_ m0 (Z.of_nat (length (layers m0)))).1.
    rewrite <- Hw; destruct (freeze_layers_ _ _) as [m' ws]; cbn [fst snd] in *.
    split; [reflexivity|]; split; [exact Ht|].
    rewrite Htr, Nat2Z.id, drop_all; reflexivity.
Qed.

(** X19: [from_pretrained] gets [**{**model_config, **kwargs}]: the call
    raises [TypeError] (multiple values for a keyword) iff [kwargs] holds
    one of the names passed explicitly ([cls], the model name, [num_labels],
    [id2label], [label2id]); otherwise each keyword is the caller's value
    if given, else the dropout rate for all five dropout keys whatever the
    architecture, and absent for any other key. [build_model] then fails
    exactly when the call fails or the load rejects these keywords. *)
Theorem X19_call_kwargs (dr : option PyVal) (kw : gmap string PyVal) :
  (call_kwargs dr kw = None <-> exists k, k ∈ explicit_args /\ is_Some (kw !! k)) /\
  (forall cl fp fl, build_model cl fp dr fl kw = None <->
     match call_kwargs dr kw with
     | None => True
     | Some kw' => fp kw' = None
     end) /\
  (forall merged, call_kwargs dr kw = Some merged ->
     forall k, merged !! k =
       match kw !! k with
       | Some v => Some v
       | None =>
           if bool_decide (k ∈ ["hidden_dropout_prob"; "attention_probs_dropout_prob";
                                "dropout"; "attention_dropout"; "classifier_dropout"])
           then dr else None
       end).
Proof.
  assert (Hm : forall k, (kw ∪ dropout_config dr) !! k =
            match kw !! k with
            | Some v => Some v
            | None => dropout_config dr !! k
            end).
  { intros k; rewrite lookup_union; destruct (kw !! k), (dropout_config dr !! k); reflexivity. }
  assert (Hex : forall k, k ∈ explicit_args -> dropout_config dr !! k = None).
  { intros k Hk; rewrite dropout_config_lookup; rewrite bool_decide_false; [reflexivity|].
    unfold explicit_args in Hk; rewrite !elem_of_cons, elem_of_nil in Hk.
    rewrite !elem_of_cons, elem_of_nil; intuition congruence. }
  assert (Hiff : existsb (fun k => bool_decide (is_Some ((kw ∪ dropout_config dr) !! k)))
                  explicit_args = true <-> exists k, k ∈ explicit_args /\ is_Some (kw !! k)).
  { rewrite existsb_exists; split.
    - intros (k & Hk & Hb); apply bool_decide_eq_true in Hb.
      apply list_elem_of_In in Hk; exists k; split; [exact Hk|].
      rewrite Hm, Hex in Hb by exact Hk; destruct (kw !! k); [eauto | exact Hb].
    - intros (k & Hk & Hs); exists k; split; [apply list_elem_of_In, Hk|].
      apply bool_decide_eq_true; rewrite Hm; destruct Hs as [v ->]; eauto. }
  split; [|split].
  2: { intros cl fp fl; unfold build_model.
       destruct (call_kwargs dr kw) as [kw'|]; [|tauto].
       destruct (fp kw'); [|tauto].
       split; [|discriminate].
       destruct fl as [k|]; [destruct (Z.eqb k (-1))|];
         try destruct (Z.leb _ _); discriminate. }
  all: unfold call_kwargs; cbv zeta.
  - destruct (existsb _ explicit_args) eqn:E.
    + split; [intros _; apply Hiff; reflexivity | reflexivity].
    + split; [discriminate|]; intros Hs; apply Hiff in Hs; congruence.
  - intros merged H k; destruct (existsb _ _); [discriminate|]; injection H as <-.
    rewrite Hm, dropout_config_lookup; reflexivity.
Qed.

(** X20: [get_model_info]: [non_trainable_parameters] is
    [total - trainable] and never negative, and [num_hidden_layers] is
    reported for a BERT/RoBERTa model iff it has encoder layers, and for
    another model iff its config gives a positive count. *)
Theorem X20_model_info (m : Model) :
  let info := get_model_info m in
  (0 <= non_trainable_parameters info)%Z /\
  Z.of_nat (total_parameters info) =
    (Z.of_nat (trainable_parameters info) + non_trainable_parameters info)%Z /\
  num_hidden_layers info =
    match arch m with
    | Bert | Roberta =>
        match layers m with [] => None | _ => Some (Z.of_nat (length (layers m))) end
    | OtherArch (Some (S n)) => Some (Z.of_nat (S n))
    | OtherArch _ => None
    end.
Proof.
  cbv zeta; unfold get_model_info; cbn [non_trainable_parameters total_parameters
    trainable_parameters num_hidden_layers].
  assert (Hle : trainable_params m <= total_params m).
  { unfold trainable_params, total_params; apply trainable_le_numel. }
  split; [lia|]; split; [lia|].
  unfold count_model_layers; destruct (arch m) as [| |[[|n]|]];
    try (destruct (layers m); reflexivity); reflexivity.
Qed.

End Model.

End Facts.
